(** * glassy-dash operational scripts: deploy_artifact.py and server/cleanup.py

    A shallow embedding of the two scripts.  Each script is a straight-line
    program over external effects (child processes, the file system, an
    SQLite connection, standard output) with Python exceptions, so both are
    written in one small state-and-exception monad: the state component
    carries everything an observer of a run can see (the lines printed, the
    commands started, the content of the database), the result component is
    either a returned value or a raised exception.  The outside world is an
    explicit parameter that answers every query the scripts make. *)

From Stdlib Require Import ZArith Lia DecimalString.
From stdpp Require Import base option list strings gmap.

Local Open Scope string_scope.
Local Open Scope list_scope.

(** ** The effect monad *)

Module Eff.

(** What a Python call does: return a value or raise. *)
Inductive result (E A : Type) : Type :=
| Ret (a : A)
| Raise (e : E).
Arguments Ret {E A} a.
Arguments Raise {E A} e.

(** A computation reads the state, and yields a result and the new state.
    The state is kept when an exception is raised: lines printed before a
    raise stay printed. *)
Definition M (S E A : Type) : Type := S -> result E A * S.

Definition ret {S E A} (a : A) : M S E A := fun s => (Ret a, s).

Definition bind {S E A B} (m : M S E A) (k : A -> M S E B) : M S E B :=
  fun s =>
    match m s with
    | (Ret a, s') => k a s'
    | (Raise e, s') => (Raise e, s')
    end.

Definition raise {S E A} (e : E) : M S E A := fun s => (Raise e, s).

(** [try: body except e if handles e: handler e].  The handler is chosen by
    the class of the exception; [None] means the except clause does not
    match and the exception goes on. *)
Definition try_except {S E A} (body : M S E A) (handler : E -> option (M S E A))
  : M S E A :=
  fun s =>
    match body s with
    | (Ret a, s') => (Ret a, s')
    | (Raise e, s') =>
        match handler e with
        | Some h => h s'
        | None => (Raise e, s')
        end
    end.

Definition modify {S E} (f : S -> S) : M S E unit := fun s => (Ret tt, f s).
Definition gets {S E A} (f : S -> A) : M S E A := fun s => (Ret (f s), s).

End Eff.

Import Eff.

Notation "x <- m ;; k" := (bind m (fun x => k))
  (at level 100, m at next level, right associativity).
Notation "m ;; k" := (bind m (fun _ => k))
  (at level 100, right associativity).

(** Characters that cannot be written inside a string literal. *)
Definition LF : string := String (Ascii.ascii_of_nat 10) EmptyString.
Definition DQUOTE : string := String (Ascii.ascii_of_nat 34) EmptyString.
Definition BACKSLASH : string := String (Ascii.ascii_of_nat 92) EmptyString.

(** [sep.join(parts)] *)
Fixpoint join (sep : string) (parts : list string) : string :=
  match parts with
  | [] => EmptyString
  | [p] => p
  | p :: rest => p +:+ sep +:+ join sep rest
  end.

(** ** deploy_artifact.py *)

Module Deploy.

(** *** Configuration *)

Definition IMAGE_NAME : string := "glassy-dash:prod".
Definition ARTIFACT_NAME : string := "glassy-dash.tar.gz".
Definition JUMP_HOST : string := "glassy-jump".
Definition VM_HOST : string := "glassy-vm".
Definition VM_IP : string := "192.168.122.45".
Definition VM_USER : string := "pozi".

(** *** Values, exceptions, observable events *)

(** The [cmd] argument of [run_command]: a list of words or one shell line. *)
Inductive cmd_arg : Type :=
| CmdList (argv : list string)
| CmdStr (line : string).

(** The exceptions a run can meet.  [subprocess.check_call] raises
    [CalledProcessError] when the child exits with a non-zero status and
    [OSError] (for instance [FileNotFoundError]) when the child cannot be
    started; [os.path.getsize] raises [OSError] when the file cannot be
    inspected; [sys.exit] raises [SystemExit]. *)
Inductive exn : Type :=
| CalledProcessError (returncode : Z) (cmd : cmd_arg)
| OSError (errno : Z)
| SystemExit (code : Z).

(** What a run leaves behind for an observer, oldest first.  The two
    formatted lines whose text depends on [str(e)] and on a float are
    recorded with their arguments instead of their rendering. *)
Inductive event : Type :=
| Printed (line : string)
| PrintedCommandError (e : exn)
| PrintedArtifactSize (bytes : Z)
| CheckCall (cmd : cmd_arg) (shell : bool).

Definition log : Type := list event.

#[export] Instance cmd_arg_eq_dec : EqDecision cmd_arg.
Proof. solve_decision. Defined.
#[export] Instance exn_eq_dec : EqDecision exn.
Proof. solve_decision. Defined.
#[export] Instance event_eq_dec : EqDecision event.
Proof. solve_decision. Defined.

(** How a child process ends, as [subprocess] sees it. *)
Inductive child : Type :=
| Exited (status : Z)
| NotStarted (errno : Z).

(** The outside world.  A child's fate and a file's size may depend on
    everything that happened before (a later command reads what an earlier
    one wrote), so both are given the log so far. *)
Record world : Type := {
  path_exists : string -> bool;
  spawn : log -> cmd_arg -> bool -> child;
  file_size : log -> string -> Z + Z  (* inl bytes, inr errno *)
}.

Definition Run (A : Type) : Type := M log exn A.

Section Script.

Variable w : world.

Definition print (line : string) : Run unit :=
  modify (fun t => t ++ [Printed line]).

(** [subprocess.check_call(cmd, shell=...)] *)
Definition check_call (cmd : cmd_arg) (shell : bool) : Run unit :=
  fun t =>
    let t' := t ++ [CheckCall cmd shell] in
    match spawn w t cmd shell with
    | Exited status =>
        if Z.eqb status 0 then (Ret tt, t')
        else (Raise (CalledProcessError status cmd), t')
    | NotStarted errno => (Raise (OSError errno), t')
    end.

(** [os.path.getsize(path)] *)
Definition getsize (path : string) : Run Z :=
  fun t =>
    match file_size w t path with
    | inl bytes => (Ret bytes, t)
    | inr errno => (Raise (OSError errno), t)
    end.

(** [sys.exit(code)] *)
Definition sys_exit {A} (code : Z) : Run A := raise (SystemExit code).

Definition running_line (cmd : cmd_arg) : string :=
  "--> Running: " +:+
    match cmd with
    | CmdList argv => join " " argv
    | CmdStr line => line
    end.

Definition run_command (cmd : cmd_arg) (shell : bool) : Run bool :=
  print (running_line cmd) ;;
  try_except
    ((if shell then check_call cmd true else check_call cmd false) ;;
     ret true)
    (fun e =>
       match e with
       | CalledProcessError _ _ =>
           Some (modify (fun t => t ++ [PrintedCommandError e]) ;;
                 ret false)
       | _ => None
       end).

Definition build_banner : string :=
  LF +:+ "[1/4] Building Docker Image Locally (" +:+ IMAGE_NAME +:+ ")...".
Definition package_banner : string :=
  LF +:+ "[2/4] Saving and Compressing Artifact (" +:+ ARTIFACT_NAME +:+ ")...".
Definition ship_banner : string :=
  LF +:+ "[3/4] Shipping Artifact to " +:+ VM_HOST +:+
    " (Tunneling through Jump Host)...".
Definition remote_banner : string :=
  LF +:+ "[4/4] Loading and Running on VM...".

Definition docker_build_cmd : cmd_arg :=
  CmdList ["docker"; "build"; "-t"; IMAGE_NAME; "."].
Definition docker_save_cmd : cmd_arg :=
  CmdStr ("docker save " +:+ IMAGE_NAME +:+ " | gzip > " +:+ ARTIFACT_NAME).

Definition build_local : Run bool :=
  print build_banner ;;
  ok <- run_command docker_build_cmd false ;;
  if negb ok then ret false else
  print package_banner ;;
  let cmd := docker_save_cmd in
  ok <- run_command cmd true ;;
  if negb ok then ret false else
  size <- getsize ARTIFACT_NAME ;;
  modify (fun t => t ++ [PrintedArtifactSize size]) ;;
  ret true.

Definition scp_cmd : cmd_arg :=
  CmdList ["scp"; "-o"; "ProxyJump=" +:+ JUMP_HOST; ARTIFACT_NAME;
           VM_USER +:+ "@" +:+ VM_IP +:+ ":~/"].

Definition transferring_line : string :=
  "    Transferring " +:+ ARTIFACT_NAME +:+ " -> " +:+ VM_IP +:+ "...".

Definition ship_artifact : Run bool :=
  print ship_banner ;;
  print transferring_line ;;
  let cmd := scp_cmd in
  ok <- run_command cmd false ;;
  if negb ok then ret false else
  ret true.

Definition remote_script : string :=
  join LF
    [ EmptyString;
      "    echo '--> Loading image...'";
      "    gunzip -c ~/" +:+ ARTIFACT_NAME +:+ " | sudo docker load";
      "    ";
      "    echo '--> Cleaning up old container...'";
      "    sudo docker rm -f GLASSYDASH 2>/dev/null || true";
      "    ";
      "    echo '--> Starting application...'";
      "    sudo docker run -d " +:+ BACKSLASH;
      "      --name GLASSYDASH " +:+ BACKSLASH;
      "      --restart unless-stopped " +:+ BACKSLASH;
      "      -p 3001:8080 " +:+ BACKSLASH;
      "      -e NODE_ENV=production " +:+ BACKSLASH;
      "      -e API_PORT=8080 " +:+ BACKSLASH;
      "      -e JWT_SECRET=" +:+ DQUOTE +:+ "deployed-secret-key-prod"
        +:+ DQUOTE +:+ " " +:+ BACKSLASH;
      "      -e DB_FILE=" +:+ DQUOTE +:+ "/app/data/notes.db"
        +:+ DQUOTE +:+ " " +:+ BACKSLASH;
      "      -e ADMIN_EMAILS=" +:+ DQUOTE +:+ "admin"
        +:+ DQUOTE +:+ " " +:+ BACKSLASH;
      "      -e ALLOW_REGISTRATION=false " +:+ BACKSLASH;
      "      -v ~/.GLASSYDASH:/app/data " +:+ BACKSLASH;
      "      " +:+ IMAGE_NAME;
      "      ";
      "    echo '--> Verifying...'";
      "    sudo docker ps | grep GLASSYDASH";
      "    " ].

Definition ssh_cmd : cmd_arg :=
  CmdList ["ssh"; "-J"; JUMP_HOST; VM_USER +:+ "@" +:+ VM_IP; remote_script].

Definition run_remote : Run bool :=
  print remote_banner ;;
  ok <- run_command ssh_cmd false ;;
  if negb ok then ret false else
  ret true.

Definition dockerfile_error : string :=
  "Error: Run this script from the project root (where Dockerfile is).".
Definition complete_line : string :=
  LF +:+ "✅ Deployment to PROD Complete!".
Definition availability_line : string :=
  "Check availability at http://dash.0rel.com (if proxy is configured) or http://"
    +:+ JUMP_HOST +:+ ":3001 via tunnel.".
Definition remote_failed_line : string := LF +:+ "❌ Remote Run Failed".
Definition shipping_failed_line : string := LF +:+ "❌ Shipping Failed".
Definition build_failed_line : string := LF +:+ "❌ Build Failed".

(** The [if __name__ == "__main__":] block. *)
Definition main : Run unit :=
  (if negb (path_exists w "Dockerfile")
   then print dockerfile_error ;; sys_exit 1
   else ret tt) ;;
  b <- build_local ;;
  if b then
    s <- ship_artifact ;;
    if s then
      r <- run_remote ;;
      if r then
        print complete_line ;;
        print availability_line
      else print remote_failed_line
    else print shipping_failed_line
  else print build_failed_line.

End Script.

(** A run of the script starts with nothing printed and nothing started. *)
Definition run (w : world) : result exn unit * log := main w [].

(** The status the interpreter hands to the operating system: 0 when the
    program falls off its end, the code of a [SystemExit], and 1 when any
    other exception reaches the top level. *)
Definition exit_status (r : result exn unit) : Z :=
  match r with
  | Ret _ => 0
  | Raise (SystemExit code) => code
  | Raise _ => 1
  end.

(** *** What an observer reads off a log *)

Definition commands (t : log) : list (cmd_arg * bool) :=
  flat_map (fun e => match e with CheckCall c sh => [(c, sh)] | _ => [] end) t.

Definition lines (t : log) : list string :=
  flat_map (fun e => match e with Printed l => [l] | _ => [] end) t.

(** The four phases the script numbers [1/4] to [4/4], in declared order. *)
Inductive stage : Type := Build | Package | Ship | Remote.

#[export] Instance stage_eq_dec : EqDecision stage.
Proof. solve_decision. Defined.

Definition declared_order : list stage := [Build; Package; Ship; Remote].

Definition stage_banner (s : stage) : string :=
  match s with
  | Build => build_banner
  | Package => package_banner
  | Ship => ship_banner
  | Remote => remote_banner
  end.

(** The external command that is the action of each stage, as it is handed
    to [subprocess.check_call]. *)
Definition stage_command (s : stage) : cmd_arg * bool :=
  match s with
  | Build => (docker_build_cmd, false)
  | Package => (docker_save_cmd, true)
  | Ship => (scp_cmd, false)
  | Remote => (ssh_cmd, false)
  end.

(** A stage shows in the log twice: its banner is printed when it is
    entered, and its command is started when its action is invoked. *)
Inductive mark : Type :=
| Entered (s : stage)
| Invoked (s : stage).

#[export] Instance mark_eq_dec : EqDecision mark.
Proof. solve_decision. Defined.

Definition mark_of (e : event) : list mark :=
  match e with
  | Printed l =>
      map Entered (filter (fun s => l = stage_banner s) declared_order)
  | CheckCall c sh =>
      map Invoked (filter (fun s => (c, sh) = stage_command s) declared_order)
  | _ => []
  end.

Definition marks (t : log) : list mark := flat_map mark_of t.

(** The whole life of the four stages when each runs once, in order. *)
Definition full_schedule : list mark :=
  flat_map (fun s => [Entered s; Invoked s]) declared_order.

(** How often the action of a stage was invoked. *)
Definition invocations (s : stage) (t : log) : nat :=
  length (filter (fun m => m = Invoked s) (marks t)).

(** Neither entered nor invoked. *)
Definition untouched (s : stage) (t : log) : Prop :=
  (Entered s ∉ marks t) /\ (Invoked s ∉ marks t).

(** The three stage functions [main] calls, and the line it prints when
    one of them returns [False]. *)
Inductive step : Type := BuildLocal | ShipArtifact | RunRemote.

#[export] Instance step_eq_dec : EqDecision step.
Proof. solve_decision. Defined.

Definition failure_line (f : step) : string :=
  match f with
  | BuildLocal => build_failed_line
  | ShipArtifact => shipping_failed_line
  | RunRemote => remote_failed_line
  end.

(** The failure lines of [main] found in a log, as the steps they name. *)
Definition verdict_of (e : event) : list step :=
  match e with
  | Printed l => filter (fun f => l = failure_line f) [BuildLocal; ShipArtifact; RunRemote]
  | _ => []
  end.

Definition verdicts (t : log) : list step := flat_map verdict_of t.

(** A log in which exactly the first [k] stages were entered and invoked,
    once each and in declared order, and no other command was started. *)
Definition reached (k : nat) (t : log) : Prop :=
  marks t = take (2 * k) full_schedule /\
  commands t = take k (map stage_command declared_order).

(** The outcome of a pipeline run: refused before any stage (no
    Dockerfile), every stage function returned [True], one returned
    [False], or one raised. *)
Inductive outcome : Type :=
| Refused
| Success
| FailedAt (f : step)
| Crashed (f : step) (e : exn).

Definition outcome_of (w : world) : outcome :=
  if negb (path_exists w "Dockerfile") then Refused else
  match build_local w [] with
  | (Raise e, _) => Crashed BuildLocal e
  | (Ret false, _) => FailedAt BuildLocal
  | (Ret true, t1) =>
      match ship_artifact w t1 with
      | (Raise e, _) => Crashed ShipArtifact e
      | (Ret false, _) => FailedAt ShipArtifact
      | (Ret true, t2) =>
          match run_remote w t2 with
          | (Raise e, _) => Crashed RunRemote e
          | (Ret false, _) => FailedAt RunRemote
          | (Ret true, _) => Success
          end
      end
  end.

(** *** Some worlds *)

(** Every child exits with [status]; the artifact has [bytes] bytes. *)
Definition uniform_world (dockerfile : bool) (status : Z) : world :=
  {| path_exists := fun p => if decide (p = "Dockerfile") then dockerfile else false;
     spawn := fun _ _ _ => Exited status;
     file_size := fun _ _ => inl 1048576%Z |}.

(** Children named in [failing] exit with status 1, all others with 0. *)
Definition world_failing (failing : list stage) : world :=
  {| path_exists := fun p => bool_decide (p = "Dockerfile");
     spawn := fun _ c sh =>
       if bool_decide (Exists (fun s => (c, sh) = stage_command s) failing)
       then Exited 1 else Exited 0;
     file_size := fun _ _ => inl 1048576%Z |}.

(** A machine without a [docker] executable: starting a command given as a
    list whose first word is [docker] fails with ENOENT; a shell line is
    started by the shell, which reports an unknown program as status 127. *)
Definition world_without_docker : world :=
  {| path_exists := fun p => bool_decide (p = "Dockerfile");
     spawn := fun _ c _ =>
       match c with
       | CmdList ("docker" :: _) => NotStarted 2
       | CmdList _ => Exited 0
       | CmdStr _ => Exited 127
       end;
     file_size := fun _ _ => inr 2%Z |}.

(** *** The paths of a run *)

(** What each stage writes to the log up to the start of its command, and
    what [run_command] adds when the command exits with a non-zero status. *)
Definition build_part : log :=
  [Printed build_banner; Printed (running_line docker_build_cmd);
   CheckCall docker_build_cmd false].
Definition package_part : log :=
  [Printed package_banner; Printed (running_line docker_save_cmd);
   CheckCall docker_save_cmd true].
Definition ship_part : log :=
  [Printed ship_banner; Printed transferring_line;
   Printed (running_line scp_cmd); CheckCall scp_cmd false].
Definition remote_part : log :=
  [Printed remote_banner; Printed (running_line ssh_cmd);
   CheckCall ssh_cmd false].
Definition error_part (status : Z) (cmd : cmd_arg) : log :=
  [PrintedCommandError (CalledProcessError status cmd)].

(** The ten ways a run can go, each with its outcome, its result and its
    whole log.  A raise inside [build_local] after the build command has
    succeeded leaves the same trace whether the shell could not be started
    or the size of the artifact could not be read. *)
Inductive path : outcome -> result exn unit * log -> Prop :=
| path_refused :
    path Refused (Raise (SystemExit 1), [Printed dockerfile_error])
| path_build_failed (status : Z) :
    status <> 0%Z ->
    path (FailedAt BuildLocal)
      (Ret tt,
       build_part ++ error_part status docker_build_cmd
         ++ [Printed build_failed_line])
| path_build_not_started (errno : Z) :
    path (Crashed BuildLocal (OSError errno)) (Raise (OSError errno), build_part)
| path_package_failed (status : Z) :
    status <> 0%Z ->
    path (FailedAt BuildLocal)
      (Ret tt,
       build_part ++ package_part ++ error_part status docker_save_cmd
         ++ [Printed build_failed_line])
| path_package_raised (errno : Z) :
    path (Crashed BuildLocal (OSError errno))
      (Raise (OSError errno), build_part ++ package_part)
| path_ship_failed (bytes status : Z) :
    status <> 0%Z ->
    path (FailedAt ShipArtifact)
      (Ret tt,
       build_part ++ package_part ++ [PrintedArtifactSize bytes] ++ ship_part
         ++ error_part status scp_cmd ++ [Printed shipping_failed_line])
| path_ship_not_started (bytes errno : Z) :
    path (Crashed ShipArtifact (OSError errno))
      (Raise (OSError errno),
       build_part ++ package_part ++ [PrintedArtifactSize bytes] ++ ship_part)
| path_remote_failed (bytes status : Z) :
    status <> 0%Z ->
    path (FailedAt RunRemote)
      (Ret tt,
       build_part ++ package_part ++ [PrintedArtifactSize bytes] ++ ship_part
         ++ remote_part ++ error_part status ssh_cmd
         ++ [Printed remote_failed_line])
| path_remote_not_started (bytes errno : Z) :
    path (Crashed RunRemote (OSError errno))
      (Raise (OSError errno),
       build_part ++ package_part ++ [PrintedArtifactSize bytes] ++ ship_part
         ++ remote_part)
| path_complete (bytes : Z) :
    path Success
      (Ret tt,
       build_part ++ package_part ++ [PrintedArtifactSize bytes] ++ ship_part
         ++ remote_part ++ [Printed complete_line; Printed availability_line]).

(** The exceptions whose error line was printed by [run_command]. *)
Definition errors (t : log) : list exn :=
  flat_map (fun e => match e with PrintedCommandError x => [x] | _ => [] end) t.

(** Every command in [t] stands right after the line that announces it;
    [prev] is the event before the first one of [t]. *)
Fixpoint announced (prev : option event) (t : log) : bool :=
  match t with
  | [] => true
  | e :: rest =>
      match e with
      | CheckCall c _ => bool_decide (prev = Some (Printed (running_line c)))
      | _ => true
      end && announced (Some e) rest
  end.

(** Children exit as [fate] says; the artifact is as [size] says. *)
Definition world_of (fate : cmd_arg -> child) (size : Z + Z) : world :=
  {| path_exists := fun p => bool_decide (p = "Dockerfile");
     spawn := fun _ c _ => fate c;
     file_size := fun _ _ => size |}.

(** The child running [cmd] ends as [end_of_cmd], every other child exits
    with status 0. *)
Definition only (cmd : cmd_arg) (end_of_cmd : child) : cmd_arg -> child :=
  fun c => if bool_decide (c = cmd) then end_of_cmd else Exited 0.

End Deploy.


(** ** server/cleanup.py *)

Module Cleanup.

Definition db_path : string :=
  "/home/pozicontrol/projects/glassy-dash/GLASSYDASH/server/data.sqlite".

(** *** The database *)

Inductive sqlval : Type :=
| SqlNull
| SqlInt (z : Z)
| SqlText (s : string).

Definition row : Type := list sqlval.

(** The content of a database: the rows of each table, by table name. *)
Abbreviation tables := (gmap string (list row)).

(** Every failure of the [sqlite3] module is an instance of [sqlite3.Error],
    a subclass of [Exception]; [str(e)] is its message. *)
Inductive exn : Type :=
| SqliteError (msg : string).

Inductive event : Type :=
| Printed (line : string)
| Execute (sql : string)
| Commit
| Close.

#[export] Instance sql_event_eq_dec : EqDecision event.
Proof. solve_decision. Defined.

(** The connection and its cursor, with what was printed and called so far.
    [file] is what the database file durably holds.  A data-changing
    statement opens a transaction when none is open; inside it the
    statements work on [txn], and only [commit] copies that to [file]. *)
Record state : Type := {
  file : tables;
  txn : option tables;
  rowcount : Z;
  out : list event
}.

Definition record (e : event) (s : state) : state :=
  {| file := file s; txn := txn s; rowcount := rowcount s; out := out s ++ [e] |}.

(** The outside world: the content of the file at [db_path] before the run
    (no table at all when the file is created by [connect]), and the
    failures the environment can inject (unable to open the file, database
    is locked, disk I/O error, ...), each with its message. *)
Record world : Type := {
  stored : tables;
  connect_fault : option string;
  execute_fault : list event -> string -> option string;
  commit_fault : list event -> option string
}.

Definition Run (A : Type) : Type := M state exn A.

(** [s] without the prefix [p], when it starts with [p]. *)
Fixpoint strip_prefix (p s : string) : option string :=
  match p, s with
  | EmptyString, _ => Some s
  | String a p', String b s' => if Ascii.eqb a b then strip_prefix p' s' else None
  | String _ _, EmptyString => None
  end.

(** The statements the script issues have the form [DELETE FROM <table>]. *)
Definition delete_target (sql : string) : option string :=
  strip_prefix "DELETE FROM " sql.

(** [str(n)] for an [int] *)
Definition str (n : Z) : string := NilZero.string_of_int (Z.to_int n).

Section Script.

Variable w : world.

Definition print (line : string) : Run unit := modify (record (Printed line)).

(** [sqlite3.connect(path)] *)
Definition connect (path : string) : Run unit :=
  match connect_fault w with
  | Some msg => raise (SqliteError msg)
  | None => ret tt
  end.

(** [c.execute(sql)]: a [DELETE] without [WHERE] removes every row of the
    table and sets [c.rowcount] to the number of rows removed.  The schema
    is taken to be plain tables: triggers and cascading foreign keys, which
    would let a [DELETE] reach other tables, are not part of [tables]. *)
Definition execute (sql : string) : Run unit :=
  fun s =>
    let s1 := record (Execute sql) s in
    match execute_fault w (out s) sql with
    | Some msg => (Raise (SqliteError msg), s1)
    | None =>
        match delete_target sql with
        | None => (Raise (SqliteError "syntax error"), s1)
        | Some table =>
            let view := default (file s1) (txn s1) in
            match view !! table with
            | None => (Raise (SqliteError ("no such table: " +:+ table)), s1)
            | Some rows =>
                (Ret tt,
                 {| file := file s1;
                    txn := Some (<[table := []]> view);
                    rowcount := Z.of_nat (length rows);
                    out := out s1 |})
            end
        end
    end.

(** [conn.commit()] *)
Definition commit : Run unit :=
  fun s =>
    let s1 := record Commit s in
    match commit_fault w (out s) with
    | Some msg => (Raise (SqliteError msg), s1)
    | None =>
        (Ret tt,
         {| file := default (file s1) (txn s1);
            txn := None;
            rowcount := rowcount s1;
            out := out s1 |})
    end.

(** [conn.close()]: a transaction still open is rolled back. *)
Definition close : Run unit :=
  fun s =>
    (Ret tt,
     {| file := file s; txn := None; rowcount := rowcount s;
        out := out s ++ [Close] |}).

Definition success_line (deleted_notes deleted_collabs : Z) : string :=
  "SUCCESS: Deleted " +:+ str deleted_notes +:+ " notes and " +:+
    str deleted_collabs +:+ " collaborator records.".

Definition error_line (e : exn) : string :=
  match e with SqliteError msg => "ERROR: " +:+ msg end.

(** The module body.  [except Exception] matches every [sqlite3] error. *)
Definition script : Run unit :=
  try_except
    (connect db_path ;;
     print "Deleting notes..." ;;
     execute "DELETE FROM notes" ;;
     deleted_notes <- gets rowcount ;;
     print "Deleting collaborators..." ;;
     execute "DELETE FROM note_collaborators" ;;
     deleted_collabs <- gets rowcount ;;
     commit ;;
     close ;;
     print (success_line deleted_notes deleted_collabs))
    (fun e => Some (print (error_line e))).

End Script.

(** Before the run nothing is printed, no transaction is open and the
    cursor does not exist yet. *)
Definition initial (w : world) : state :=
  {| file := stored w; txn := None; rowcount := (-1)%Z; out := [] |}.

Definition run (w : world) : result exn unit * state := script w (initial w).

(** What the database file holds once the process has ended: a transaction
    left open is never committed. *)
Definition final_db (w : world) : tables := file (snd (run w)).

Definition executed (t : list event) : list string :=
  flat_map (fun e => match e with Execute sql => [sql] | _ => [] end) t.

Definition commits (t : list event) : nat :=
  length (filter (fun e => e = Commit) t).

(** Both tables emptied, every other table as it was. *)
Definition purged (d : tables) : tables :=
  <["note_collaborators" := []]> (<["notes" := []]> d).

(** How a run ends after an error with message [msg]: the file untouched,
    the transaction [pending] left open, the error line printed last. *)
Definition after_error (w : world) (pending : option tables) (rc : Z)
    (t : list event) (msg : string) : result exn unit * state :=
  (Ret tt,
   {| file := stored w; txn := pending; rowcount := rc;
      out := t ++ [Printed ("ERROR: " +:+ msg)] |}).

(** A world in which nothing fails and the two tables hold [n] and [m] rows;
    a third table stands for the rest of the schema. *)
Definition healthy_world (n m : nat) : world :=
  {| stored := {[ "notes" := replicate n [SqlInt 1];
                  "note_collaborators" := replicate m [SqlInt 1; SqlInt 2];
                  "users" := [[SqlText "admin"]] ]};
     connect_fault := None;
     execute_fault := fun _ _ => None;
     commit_fault := fun _ => None |}.

(** The schema lacks [note_collaborators]: the second statement fails
    after the first one has run. *)
Definition world_missing_collaborators : world :=
  {| stored := {[ "notes" := [[SqlInt 1]; [SqlInt 2]] ]};
     connect_fault := None;
     execute_fault := fun _ _ => None;
     commit_fault := fun _ => None |}.

(** The world of a later run of the script: the file holds what the run
    in [w] left, the environment is that of [later]. *)
Definition world_after (w later : world) : world :=
  {| stored := final_db w;
     connect_fault := connect_fault later;
     execute_fault := execute_fault later;
     commit_fault := commit_fault later |}.

(** The database file cannot be opened. *)
Definition world_unopenable : world :=
  {| stored := ∅;
     connect_fault := Some "unable to open database file";
     execute_fault := fun _ _ => None;
     commit_fault := fun _ => None |}.

End Cleanup.

(** * Facts about deploy_artifact.py *)

Module DeployFacts.

Import Deploy.

(** ** Reading a log *)

Lemma marks_app (t u : log) : marks (t ++ u) = marks t ++ marks u.
Proof. unfold marks. apply flat_map_app. Qed.

Lemma commands_app (t u : log) : commands (t ++ u) = commands t ++ commands u.
Proof. unfold commands. apply flat_map_app. Qed.

Lemma verdicts_app (t u : log) : verdicts (t ++ u) = verdicts t ++ verdicts u.
Proof. unfold verdicts. apply flat_map_app. Qed.

(** A failure line is in the log exactly when its step is among the
    verdicts read off the log. *)
Lemma verdicts_spec (t : log) (f : step) :
  f ∈ verdicts t <-> Printed (failure_line f) ∈ t.
Proof.
  induction t as [|e t IH].
  - cbn. split; intros H; inversion H.
  - change (verdicts (e :: t)) with (verdict_of e ++ verdicts t).
    rewrite elem_of_app, elem_of_cons, IH.
    assert (f ∈ verdict_of e <-> Printed (failure_line f) = e) as ->; [|tauto].
    destruct e as [l| | |]; cbn [verdict_of];
      try (split; [intros H; inversion H | discriminate]).
    rewrite list_elem_of_filter. split.
    + intros [-> _]. reflexivity.
    + intros [= <-]. split; [reflexivity|].
      destruct f; repeat constructor.
Qed.

Lemma failure_line_inj (f g : step) : failure_line f = failure_line g -> f = g.
Proof. destruct f, g; intros H; try reflexivity; discriminate H. Qed.

Section WithWorld.

Variable w : world.

(** ** One command *)

(** The three ways [run_command] can end, by the fate of the child. *)
Lemma run_command_spec (cmd : cmd_arg) (shell : bool) (t : log) :
  run_command w cmd shell t =
    match spawn w (t ++ [Printed (running_line cmd)]) cmd shell with
    | Exited status =>
        if Z.eqb status 0
        then (Ret true, t ++ [Printed (running_line cmd); CheckCall cmd shell])
        else (Ret false,
              t ++ [Printed (running_line cmd); CheckCall cmd shell;
                    PrintedCommandError (CalledProcessError status cmd)])
    | NotStarted errno =>
        (Raise (OSError errno),
         t ++ [Printed (running_line cmd); CheckCall cmd shell])
    end.
Proof.
  unfold run_command, try_except, bind, print, modify, check_call, ret.
  destruct shell; cbn;
    destruct (spawn w _ cmd _) as [status|errno]; cbn;
    rewrite <- ?app_assoc; try reflexivity;
    destruct (Z.eqb status 0); rewrite <- ?app_assoc; reflexivity.
Qed.

(** [run_command] starts its command exactly once, prints no failure line
    of [main], and raises nothing but [OSError]. *)
Lemma run_command_adds (cmd : cmd_arg) (shell : bool) (t t1 : log)
    (r : result exn bool) :
  mark_of (Printed (running_line cmd)) = [] ->
  verdict_of (Printed (running_line cmd)) = [] ->
  run_command w cmd shell t = (r, t1) ->
  marks t1 = marks t ++ mark_of (CheckCall cmd shell) /\
  commands t1 = commands t ++ [(cmd, shell)] /\
  verdicts t1 = verdicts t /\
  (forall e, r = Raise e -> exists errno, e = OSError errno).
Proof.
  intros Hm Hv. rewrite run_command_spec.
  destruct (spawn w _ cmd shell) as [status|errno];
    [destruct (Z.eqb status 0)|]; intros [= <- <-];
    rewrite marks_app, commands_app, verdicts_app; unfold marks, commands, verdicts; cbn [flat_map];
    rewrite Hm, Hv; cbn [app mark_of verdict_of]; rewrite ?app_nil_r;
    repeat split; try discriminate.
  intros e [= <-]. now exists errno.
Qed.

(** ** The stage functions *)

Lemma build_local_spec (t : log) :
  build_local w t =
    match run_command w docker_build_cmd false (t ++ [Printed build_banner]) with
    | (Ret true, t1) =>
        match run_command w docker_save_cmd true (t1 ++ [Printed package_banner]) with
        | (Ret true, t2) =>
            match file_size w t2 ARTIFACT_NAME with
            | inl bytes => (Ret true, t2 ++ [PrintedArtifactSize bytes])
            | inr errno => (Raise (OSError errno), t2)
            end
        | (Ret false, t2) => (Ret false, t2)
        | (Raise e, t2) => (Raise e, t2)
        end
    | (Ret false, t1) => (Ret false, t1)
    | (Raise e, t1) => (Raise e, t1)
    end.
Proof.
  unfold build_local, bind, print, modify, getsize, ret. cbv beta iota.
  destruct (run_command w docker_build_cmd false _) as [[[]|] t1]; try reflexivity.
  cbv beta iota delta [negb].
  destruct (run_command w docker_save_cmd true _) as [[[]|] t2]; try reflexivity.
  cbv beta iota delta [negb].
  destruct (file_size w t2 ARTIFACT_NAME); reflexivity.
Qed.

Lemma ship_artifact_spec (t : log) :
  ship_artifact w t =
    match run_command w scp_cmd false
            (t ++ [Printed ship_banner; Printed transferring_line]) with
    | (Ret b, t1) => (Ret b, t1)
    | (Raise e, t1) => (Raise e, t1)
    end.
Proof.
  unfold ship_artifact, bind, print, modify, ret. cbv beta iota.
  rewrite <- app_assoc. change ([?a] ++ [?b]) with [a; b].
  destruct (run_command w scp_cmd false _) as [[[]|] t1]; reflexivity.
Qed.

Lemma run_remote_spec (t : log) :
  run_remote w t =
    match run_command w ssh_cmd false (t ++ [Printed remote_banner]) with
    | (Ret b, t1) => (Ret b, t1)
    | (Raise e, t1) => (Raise e, t1)
    end.
Proof.
  unfold run_remote, bind, print, modify, ret. cbv beta iota.
  destruct (run_command w ssh_cmd false _) as [[[]|] t1]; reflexivity.
Qed.

(** What each stage function adds to the readings of a log.
    [build_local] holds two stages; the second is entered only after the
    first command has succeeded. *)
Lemma build_local_adds (t t1 : log) (r : result exn bool) :
  build_local w t = (r, t1) ->
  verdicts t1 = verdicts t /\
  (forall e, r = Raise e -> exists errno, e = OSError errno) /\
  ((r <> Ret true /\
    marks t1 = marks t ++ [Entered Build; Invoked Build] /\
    commands t1 = commands t ++ [stage_command Build]) \/
   (marks t1 = marks t ++ [Entered Build; Invoked Build; Entered Package; Invoked Package] /\
    commands t1 = commands t ++ [stage_command Build; stage_command Package])).
Proof.
  rewrite build_local_spec.
  destruct (run_command w docker_build_cmd false _) as [r1 u1] eqn:E1.
  apply run_command_adds in E1 as (M1 & C1 & V1 & R1); [|reflexivity..].
  rewrite marks_app in M1. rewrite commands_app in C1. rewrite verdicts_app in V1.
  change (marks [Printed build_banner]) with [Entered Build] in M1.
  change (mark_of (CheckCall docker_build_cmd false)) with [Invoked Build] in M1.
  change (commands [Printed build_banner]) with (@nil (cmd_arg * bool)) in C1.
  change (verdicts [Printed build_banner]) with (@nil step) in V1.
  rewrite <- app_assoc in M1. rewrite app_nil_r in C1, V1.
  destruct r1 as [[]|e1].
  2,3: intros [= <- <-]; split; [exact V1|]; split; [exact R1|];
       left; repeat split; [discriminate|exact M1|exact C1].
  destruct (run_command w docker_save_cmd true _) as [r2 u2] eqn:E2.
  apply run_command_adds in E2 as (M2 & C2 & V2 & R2); [|reflexivity..].
  rewrite marks_app, M1 in M2. rewrite commands_app, C1 in C2.
  rewrite verdicts_app, V1 in V2.
  change (marks [Printed package_banner]) with [Entered Package] in M2.
  change (mark_of (CheckCall docker_save_cmd true)) with [Invoked Package] in M2.
  change (commands [Printed package_banner]) with (@nil (cmd_arg * bool)) in C2.
  change (verdicts [Printed package_banner]) with (@nil step) in V2.
  rewrite <- !app_assoc in M2. rewrite app_nil_r in C2, V2.
  rewrite <- app_assoc in C2.
  destruct r2 as [[]|e2].
  2,3: intros [= <- <-]; split; [exact V2|]; split; [exact R2|];
       right; split; [exact M2|exact C2].
  destruct (file_size w u2 ARTIFACT_NAME) as [bytes|errno]; intros [= <- <-].
  - rewrite marks_app, commands_app, verdicts_app, V2, M2, C2. cbn. rewrite !app_nil_r.
    split; [reflexivity|]. split; [discriminate|]. right.
    split; reflexivity.
  - split; [exact V2|]. split; [intros e [= <-]; now exists errno|].
    right. split; [exact M2|exact C2].
Qed.

Lemma ship_artifact_adds (t t1 : log) (r : result exn bool) :
  ship_artifact w t = (r, t1) ->
  verdicts t1 = verdicts t /\
  (forall e, r = Raise e -> exists errno, e = OSError errno) /\
  marks t1 = marks t ++ [Entered Ship; Invoked Ship] /\
  commands t1 = commands t ++ [stage_command Ship].
Proof.
  rewrite ship_artifact_spec.
  destruct (run_command w scp_cmd false _) as [r1 u1] eqn:E1.
  apply run_command_adds in E1 as (M1 & C1 & V1 & R1); [|reflexivity..].
  rewrite marks_app in M1. rewrite commands_app in C1. rewrite verdicts_app in V1.
  change (marks [Printed ship_banner; Printed transferring_line])
    with [Entered Ship] in M1.
  change (mark_of (CheckCall scp_cmd false)) with [Invoked Ship] in M1.
  change (commands [Printed ship_banner; Printed transferring_line])
    with (@nil (cmd_arg * bool)) in C1.
  change (verdicts [Printed ship_banner; Printed transferring_line])
    with (@nil step) in V1.
  rewrite <- app_assoc in M1. rewrite app_nil_r in C1, V1.
  destruct r1 as [b|e]; intros [= <- <-]; repeat split; assumption.
Qed.

Lemma run_remote_adds (t t1 : log) (r : result exn bool) :
  run_remote w t = (r, t1) ->
  verdicts t1 = verdicts t /\
  (forall e, r = Raise e -> exists errno, e = OSError errno) /\
  marks t1 = marks t ++ [Entered Remote; Invoked Remote] /\
  commands t1 = commands t ++ [stage_command Remote].
Proof.
  rewrite run_remote_spec.
  destruct (run_command w ssh_cmd false _) as [r1 u1] eqn:E1.
  apply run_command_adds in E1 as (M1 & C1 & V1 & R1); [|reflexivity..].
  rewrite marks_app in M1. rewrite commands_app in C1. rewrite verdicts_app in V1.
  change (marks [Printed remote_banner]) with [Entered Remote] in M1.
  change (mark_of (CheckCall ssh_cmd false)) with [Invoked Remote] in M1.
  change (commands [Printed remote_banner]) with (@nil (cmd_arg * bool)) in C1.
  change (verdicts [Printed remote_banner]) with (@nil step) in V1.
  rewrite <- app_assoc in M1. rewrite app_nil_r in C1, V1.
  destruct r1 as [b|e]; intros [= <- <-]; repeat split; assumption.
Qed.

(** ** The main block *)

(** A run, by the results of the stage functions it calls in turn. *)
Lemma run_spec :
  run w =
    if path_exists w "Dockerfile" then
      match build_local w [] with
      | (Raise e, t1) => (Raise e, t1)
      | (Ret false, t1) => (Ret tt, t1 ++ [Printed build_failed_line])
      | (Ret true, t1) =>
          match ship_artifact w t1 with
          | (Raise e, t2) => (Raise e, t2)
          | (Ret false, t2) => (Ret tt, t2 ++ [Printed shipping_failed_line])
          | (Ret true, t2) =>
              match run_remote w t2 with
              | (Raise e, t3) => (Raise e, t3)
              | (Ret false, t3) => (Ret tt, t3 ++ [Printed remote_failed_line])
              | (Ret true, t3) =>
                  (Ret tt, t3 ++ [Printed complete_line; Printed availability_line])
              end
          end
      end
    else (Raise (SystemExit 1), [Printed dockerfile_error]).
Proof.
  unfold run, main, bind, print, modify, sys_exit, raise, ret.
  destruct (path_exists w "Dockerfile"); [|reflexivity].
  cbv beta iota delta [negb].
  destruct (build_local w []) as [[[]|] t1]; try reflexivity.
  destruct (ship_artifact w t1) as [[[]|] t2]; try reflexivity.
  destruct (run_remote w t2) as [[[]|] t3]; try reflexivity.
  now rewrite <- app_assoc.
Qed.

(** Every run, by its outcome: the log up to the closing lines of [main]
    shows the stages reached and no failure line, and the closing lines
    are those of the outcome. *)
Lemma run_log :
  match outcome_of w with
  | Refused => run w = (Raise (SystemExit 1), [Printed dockerfile_error])
  | Success =>
      exists t, reached 4 t /\ verdicts t = [] /\
        run w = (Ret tt, t ++ [Printed complete_line; Printed availability_line])
  | FailedAt f =>
      exists t,
        match f with
        | BuildLocal => reached 1 t \/ reached 2 t
        | ShipArtifact => reached 3 t
        | RunRemote => reached 4 t
        end /\ verdicts t = [] /\
        run w = (Ret tt, t ++ [Printed (failure_line f)])
  | Crashed f e =>
      exists t errno,
        match f with
        | BuildLocal => reached 1 t \/ reached 2 t
        | ShipArtifact => reached 3 t
        | RunRemote => reached 4 t
        end /\ verdicts t = [] /\ e = OSError errno /\
        run w = (Raise e, t)
  end.
Proof.
  rewrite run_spec. unfold outcome_of, reached.
  destruct (path_exists w "Dockerfile"); [|reflexivity].
  cbv beta iota delta [negb].
  destruct (build_local w []) as [r1 t1] eqn:E1.
  apply build_local_adds in E1 as (V1 & R1 & MC1).
  change (verdicts []) with (@nil step) in V1.
  change (marks []) with (@nil mark) in MC1.
  change (commands []) with (@nil (cmd_arg * bool)) in MC1.
  rewrite !app_nil_l in MC1.
  destruct r1 as [[]|e1].
  2:{ exists t1. split; [|split; [exact V1|reflexivity]].
      destruct MC1 as [(_ & M & C)|(M & C)]; [left|right]; split; assumption. }
  2:{ destruct (R1 e1 eq_refl) as [errno ->]. exists t1, errno.
      split; [|split; [exact V1|split; reflexivity]].
      destruct MC1 as [(_ & M & C)|(M & C)]; [left|right]; split; assumption. }
  destruct MC1 as [(N & _)|(M1 & C1)]; [congruence|].
  destruct (ship_artifact w t1) as [r2 t2] eqn:E2.
  apply ship_artifact_adds in E2 as (V2 & R2 & M2 & C2).
  rewrite V1 in V2. rewrite M1 in M2. rewrite C1 in C2.
  destruct r2 as [[]|e2].
  2:{ exists t2. split; [split; assumption|split; [exact V2|reflexivity]]. }
  2:{ destruct (R2 e2 eq_refl) as [errno ->]. exists t2, errno.
      split; [split; assumption|split; [exact V2|split; reflexivity]]. }
  destruct (run_remote w t2) as [r3 t3] eqn:E3.
  apply run_remote_adds in E3 as (V3 & R3 & M3 & C3).
  rewrite V2 in V3. rewrite M2 in M3. rewrite C2 in C3.
  destruct r3 as [[]|e3].
  - exists t3. split; [split; assumption|split; [exact V3|reflexivity]].
  - exists t3. split; [split; assumption|split; [exact V3|reflexivity]].
  - destruct (R3 e3 eq_refl) as [errno ->]. exists t3, errno.
    split; [split; assumption|split; [exact V3|split; reflexivity]].
Qed.

(** The stages a run reached, by its outcome. *)
Lemma run_readings :
  exists k,
    reached k (run w).2 /\
    match outcome_of w with
    | Refused => k = 0
    | Success => k = 4
    | FailedAt BuildLocal | Crashed BuildLocal _ => k = 1 \/ k = 2
    | FailedAt ShipArtifact | Crashed ShipArtifact _ => k = 3
    | FailedAt RunRemote | Crashed RunRemote _ => k = 4
    end.
Proof.
  pose proof run_log as H. unfold reached in *.
  destruct (outcome_of w) as [| |f|f e].
  - exists 0. rewrite H. repeat split.
  - destruct H as (t & [M C] & _ & ->). exists 4. cbn [snd].
    rewrite marks_app, commands_app, M, C. repeat split.
  - destruct H as (t & R & _ & ->). cbn [snd].
    rewrite marks_app, commands_app.
    destruct f; [destruct R as [[M C]|[M C]]|destruct R as [M C]..];
      rewrite M, C;
      [exists 1|exists 2|exists 3|exists 4]; repeat split; auto.
  - destruct H as (t & errno & R & _ & -> & ->). cbn [snd].
    destruct f; [destruct R as [[M C]|[M C]]|destruct R as [M C]..];
      rewrite M, C;
      [exists 1|exists 2|exists 3|exists 4]; repeat split; auto.
Qed.

(** [build_local] ends where its first command ends when that command
    does not succeed. *)
Lemma build_local_stops (t t1 : log) (r : result exn bool) :
  run_command w docker_build_cmd false (t ++ [Printed build_banner]) = (r, t1) ->
  r <> Ret true ->
  build_local w t = (r, t1) /\
  marks t1 = marks t ++ [Entered Build; Invoked Build].
Proof.
  intros E Hr. rewrite build_local_spec, E. split.
  - destruct r as [[]|e]; [congruence|reflexivity..].
  - apply run_command_adds in E as (M & _); [|reflexivity..].
    rewrite M, marks_app, <- app_assoc. reflexivity.
Qed.

End WithWorld.

(** Membership in a list of marks, by evaluation. *)
Lemma not_in_marks (m : mark) (l : list mark) :
  bool_decide (m ∈ l) = false -> m ∉ l.
Proof. intros Hb Hin. apply bool_decide_eq_false in Hb. contradiction. Qed.

Lemma untouched_reached (s : stage) (k : nat) (t : log) :
  reached k t ->
  bool_decide (Entered s ∈ take (2 * k) full_schedule) = false ->
  bool_decide (Invoked s ∈ take (2 * k) full_schedule) = false ->
  untouched s t.
Proof.
  intros [M _] HE HI. unfold untouched. rewrite M.
  split; apply not_in_marks; assumption.
Qed.

(** ** C1 *)

(** C1 -- fail-fast short-circuiting.  In every run: when [build_local]
    does not return [True] (it returns [False] or raises), the ship and
    remote stages are neither entered nor invoked; when [build_local]
    returns [True] and [ship_artifact] does not, the remote stage is
    neither entered nor invoked; and inside [build_local], from any log,
    when the docker-build command does not succeed the function ends right
    there, having entered and invoked the build stage only, so that the
    package stage is neither entered nor invoked in the run. *)
Theorem C1_fail_fast (w : world) :
  (forall r t1,
      build_local w [] = (r, t1) -> r <> Ret true ->
      untouched Ship (run w).2 /\ untouched Remote (run w).2) /\
  (forall t1 r t2,
      build_local w [] = (Ret true, t1) ->
      ship_artifact w t1 = (r, t2) -> r <> Ret true ->
      untouched Remote (run w).2) /\
  (forall t r t1,
      run_command w docker_build_cmd false (t ++ [Printed build_banner]) = (r, t1) ->
      r <> Ret true ->
      build_local w t = (r, t1) /\
      marks t1 = marks t ++ [Entered Build; Invoked Build] /\
      (t = [] -> untouched Package (run w).2)).
Proof.
  destruct (run_readings w) as (k & R & K). unfold outcome_of in K.
  split; [|split].
  - intros r t1 E Hr. rewrite E in K.
    assert (k = 0 \/ k = 1 \/ k = 2) as Hk.
    { destruct (path_exists w "Dockerfile"); cbn in K; [|tauto].
      destruct r as [[]|e]; [congruence|tauto..]. }
    destruct Hk as [->|[->| ->]];
      split; eapply untouched_reached; try exact R; reflexivity.
  - intros t1 r t2 E1 E2 Hr. rewrite E1, E2 in K.
    assert (k = 0 \/ k = 3) as Hk.
    { destruct (path_exists w "Dockerfile"); cbn in K; [|tauto].
      destruct r as [[]|e]; [congruence|tauto..]. }
    destruct Hk as [->| ->];
      eapply untouched_reached; try exact R; reflexivity.
  - intros t r t1 E Hr.
    destruct (build_local_stops w t t1 r E Hr) as [Hb Hm].
    split; [exact Hb|]. split; [exact Hm|].
    intros ->. unfold untouched.
    assert (marks (run w).2 = [] \/
            marks (run w).2 = [Entered Build; Invoked Build]) as Hrun.
    { rewrite run_spec.
      destruct (path_exists w "Dockerfile"); [|left; reflexivity].
      right. rewrite Hb.
      destruct r as [[]|e]; [congruence| |]; cbn [snd].
      - rewrite marks_app, Hm. reflexivity.
      - exact Hm. }
    destruct Hrun as [-> | ->]; split; apply not_in_marks; reflexivity.
Qed.

(** In a world where only the docker build fails, the run stops there. *)
Lemma C1_fail_fast_witness :
  (build_local (world_failing [Build]) []).1 = Ret false /\
  untouched Package (run (world_failing [Build])).2 /\
  untouched Ship (run (world_failing [Build])).2 /\
  untouched Remote (run (world_failing [Build])).2.
Proof.
  pose proof (C1_fail_fast (world_failing [Build])) as (H1 & _ & H3).
  split; [vm_compute; reflexivity|].
  split.
  - refine (proj2 (proj2 (H3 [] (Ret false) _ _ _)) eq_refl).
    + vm_compute. reflexivity.
    + discriminate.
  - refine (H1 (Ret false) _ _ _).
    + vm_compute. reflexivity.
    + discriminate.
Defined.

(** ** C2 *)

(** C2 -- all-success run.  When the Dockerfile is there and the three
    stage functions return [True] one after the other, the run ends
    normally with the completion line and the availability line as its
    last two lines, its outcome is [Success], the four stages are entered
    and invoked in the declared order build, package, ship, remote, each
    exactly once, and the four stage commands are the only commands
    started. *)
Theorem C2_all_success (w : world) (t1 t2 t3 : log) :
  path_exists w "Dockerfile" = true ->
  build_local w [] = (Ret true, t1) ->
  ship_artifact w t1 = (Ret true, t2) ->
  run_remote w t2 = (Ret true, t3) ->
  run w = (Ret tt, t3 ++ [Printed complete_line; Printed availability_line]) /\
  outcome_of w = Success /\
  marks (run w).2 = full_schedule /\
  commands (run w).2 = map stage_command declared_order /\
  (forall s, invocations s (run w).2 = 1).
Proof.
  intros P E1 E2 E3.
  assert (outcome_of w = Success) as O.
  { unfold outcome_of. now rewrite P, E1, E2, E3. }
  destruct (run_readings w) as (k & [M C] & K). rewrite O in K. subst k.
  split; [rewrite run_spec; now rewrite P, E1, E2, E3|].
  split; [exact O|]. split; [exact M|]. split; [exact C|].
  intros s. unfold invocations. rewrite M. destruct s; reflexivity.
Qed.

Lemma C2_all_success_witness :
  run (world_failing []) =
    (Ret tt,
     (run_remote (world_failing [])
        (ship_artifact (world_failing [])
           (build_local (world_failing []) []).2).2).2
       ++ [Printed complete_line; Printed availability_line]) /\
  marks (run (world_failing [])).2 = full_schedule.
Proof.
  pose proof (C2_all_success (world_failing [])
                (build_local (world_failing []) []).2
                (ship_artifact (world_failing [])
                   (build_local (world_failing []) []).2).2
                (run_remote (world_failing [])
                   (ship_artifact (world_failing [])
                      (build_local (world_failing []) []).2).2).2) as H.
  destruct H as (H1 & _ & H2 & _).
  - reflexivity.
  - vm_compute. reflexivity.
  - vm_compute. reflexivity.
  - vm_compute. reflexivity.
  - split; [exact H1|exact H2].
Defined.

(** ** C5 *)

Lemma take_prefix_of {A} (n : nat) (l : list A) : take n l `prefix_of` l.
Proof. exists (drop n l). now rewrite take_drop. Qed.

(** C5 -- no retries, strict sequencing.  In every run the stages entered
    and invoked form an initial part of the declared schedule (enter
    build, invoke build, enter package, ..., invoke remote), so a stage is
    entered only after the action of the stage before it has ended; the
    commands started form an initial part of the four stage commands in
    declared order; and no stage is invoked or entered more than once. *)
Theorem C5_no_retries_in_order (w : world) :
  marks (run w).2 `prefix_of` full_schedule /\
  commands (run w).2 `prefix_of` map stage_command declared_order /\
  (forall s, invocations s (run w).2 <= 1) /\
  NoDup (marks (run w).2) /\ NoDup (commands (run w).2).
Proof.
  destruct (run_readings w) as (k & [M C] & K).
  assert (k = 0 \/ k = 1 \/ k = 2 \/ k = 3 \/ k = 4) as Hk.
  { destruct (outcome_of w) as [| |[]|[] e]; tauto. }
  rewrite M, C. split; [apply take_prefix_of|]. split; [apply take_prefix_of|].
  split.
  - intros s. unfold invocations. rewrite M.
    destruct Hk as [->|[->|[->|[->| ->]]]]; destruct s; vm_compute; lia.
  - destruct Hk as [->|[->|[->|[->| ->]]]];
      split; apply (bool_decide_unpack _); vm_compute; exact I.
Qed.

(** ** C6 *)

(** C6 as stated fails: on a machine without [docker] the build stage
    fails, by raising, and the run prints no failure line at all; in
    particular it does not print the line of the build stage. *)
Lemma C6_counterexample :
  (build_local world_without_docker []).1 = Raise (OSError 2) /\
  outcome_of world_without_docker = Crashed BuildLocal (OSError 2) /\
  verdicts (run world_without_docker).2 = [] /\
  (Printed build_failed_line ∉ (run world_without_docker).2).
Proof.
  repeat split.
  intros H. apply (bool_decide_pack _) in H. vm_compute in H. exact H.
Qed.

(** C6, amended -- failure identification.  The failure lines found in the
    log of a run name exactly the stage function that returned [False], and
    none when no stage function did: the line of a step is in the log if
    and only if that step returned [False], it is then the last thing
    printed, and different steps have different lines.  A run in which a
    stage function failed by raising prints no failure line. *)
Theorem C6_failure_identification (w : world) :
  verdicts (run w).2 =
    match outcome_of w with FailedAt f => [f] | _ => [] end /\
  (forall f, Printed (failure_line f) ∈ (run w).2 <-> outcome_of w = FailedAt f) /\
  (forall f, outcome_of w = FailedAt f ->
             last (run w).2 = Some (Printed (failure_line f))) /\
  (forall f e, outcome_of w = Crashed f e ->
               forall g, Printed (failure_line g) ∉ (run w).2) /\
  (forall f g, failure_line f = failure_line g -> f = g) /\
  failure_line BuildLocal = LF +:+ "❌ Build Failed" /\
  failure_line ShipArtifact = LF +:+ "❌ Shipping Failed" /\
  failure_line RunRemote = LF +:+ "❌ Remote Run Failed".
Proof.
  assert (verdicts (run w).2 =
            match outcome_of w with FailedAt f => [f] | _ => [] end) as V.
  { pose proof (run_log w) as H.
    destruct (outcome_of w) as [| |f|f e].
    - rewrite H. reflexivity.
    - destruct H as (t & _ & V & ->). cbn [snd]. rewrite verdicts_app, V.
      reflexivity.
    - destruct H as (t & _ & V & ->). cbn [snd]. rewrite verdicts_app, V.
      destruct f; reflexivity.
    - destruct H as (t & errno & _ & V & _ & ->). exact V. }
  assert (forall f, Printed (failure_line f) ∈ (run w).2 <->
                    outcome_of w = FailedAt f) as I.
  { intros f. rewrite <- verdicts_spec, V.
    destruct (outcome_of w) as [| |g|g e];
      try (split; [intros H; inversion H | discriminate]).
    rewrite list_elem_of_singleton. split; congruence. }
  split; [exact V|]. split; [exact I|]. split; [|split; [|split]].
  - intros f O. pose proof (run_log w) as H. rewrite O in H.
    destruct H as (t & _ & _ & ->). cbn [snd]. apply last_snoc.
  - intros f e O g H. apply I in H. congruence.
  - apply failure_line_inj.
  - repeat split.
Qed.

(** When only the copy to the VM fails, the shipping line is the verdict. *)
Lemma C6_failure_identification_witness :
  verdicts (run (world_failing [Ship])).2 = [ShipArtifact] /\
  last (run (world_failing [Ship])).2 = Some (Printed (failure_line ShipArtifact)).
Proof.
  destruct (C6_failure_identification (world_failing [Ship])) as (V & _ & L & _).
  split.
  - etransitivity; [exact V|]. vm_compute. reflexivity.
  - apply L. vm_compute. reflexivity.
Defined.

(** ** C4 *)

(** C4 -- outcome signalling.  A run is a function of the world alone (the
    script reads no argument).  When every stage function returns [True]
    the exit status is 0; in every other case the exit status is not 0 or
    a failure line naming the failed step has been printed. *)
Theorem C4_exit_signalling (w : world) :
  (outcome_of w = Success -> exit_status (run w).1 = 0%Z) /\
  (outcome_of w <> Success ->
   exit_status (run w).1 <> 0%Z \/
   exists f, Printed (failure_line f) ∈ (run w).2).
Proof.
  pose proof (run_log w) as H.
  destruct (outcome_of w) as [| |f|f e].
  - split; [discriminate|]. intros _. left. rewrite H. discriminate.
  - split; [|congruence]. intros _. destruct H as (t & _ & _ & ->). reflexivity.
  - split; [discriminate|]. intros _. right. exists f.
    destruct H as (t & _ & _ & ->). cbn [snd].
    apply elem_of_app. right. constructor.
  - split; [discriminate|]. intros _. left.
    destruct H as (t & errno & _ & _ & -> & ->). discriminate.
Qed.

Lemma C4_exit_signalling_witness :
  exit_status (run (world_failing [])).1 = 0%Z /\
  (exit_status (run (world_failing [Ship])).1 <> 0%Z \/
   exists f, Printed (failure_line f) ∈ (run (world_failing [Ship])).2).
Proof.
  split.
  - apply (proj1 (C4_exit_signalling (world_failing []))).
    vm_compute. reflexivity.
  - apply (proj2 (C4_exit_signalling (world_failing [Ship]))).
    vm_compute. discriminate.
Defined.

(** ** C9 *)

(** C9 -- entry-point guard.  Without a Dockerfile in the working
    directory the run prints the error line, raises [SystemExit(1)], so
    the exit status is 1, and nothing else happens: no stage is entered
    and no command is started. *)
Theorem C9_dockerfile_guard (w : world) :
  path_exists w "Dockerfile" = false ->
  run w = (Raise (SystemExit 1), [Printed dockerfile_error]) /\
  exit_status (run w).1 = 1%Z /\
  commands (run w).2 = [] /\
  marks (run w).2 = [].
Proof.
  intros P. rewrite run_spec, P. repeat split.
Qed.

Lemma C9_dockerfile_guard_witness :
  run (uniform_world false 0) = (Raise (SystemExit 1), [Printed dockerfile_error]) /\
  exit_status (run (uniform_world false 0)).1 = 1%Z /\
  commands (run (uniform_world false 0)).2 = [] /\
  marks (run (uniform_world false 0)).2 = [].
Proof.
  apply (C9_dockerfile_guard (uniform_world false 0)). reflexivity.
Defined.

(** ** C10 *)

(** C10 as stated fails: on a machine without [docker] the Dockerfile is
    there, yet the process ends with status 1, because the [OSError] of
    the first command is caught nowhere. *)
Lemma C10_counterexample :
  path_exists world_without_docker "Dockerfile" = true /\
  run world_without_docker =
    (Raise (OSError 2),
     [Printed build_banner; Printed (running_line docker_build_cmd);
      CheckCall docker_build_cmd false]) /\
  exit_status (run world_without_docker).1 = 1%Z.
Proof. repeat split. Qed.

(** C10, amended -- exit status.  When a stage function returns [False]
    the run prints the failure line of that step last and the exit status
    is 0.  The exit status is not 0 in two cases only, and is 1 in both:
    the Dockerfile is missing, or an [OSError] raised inside a stage
    function reached the top level. *)
Theorem C10_exit_status (w : world) :
  (forall f, outcome_of w = FailedAt f ->
     exit_status (run w).1 = 0%Z /\
     last (run w).2 = Some (Printed (failure_line f))) /\
  (exit_status (run w).1 <> 0%Z <->
     path_exists w "Dockerfile" = false \/
     exists f errno, outcome_of w = Crashed f (OSError errno) /\
                     (run w).1 = Raise (OSError errno)) /\
  (exit_status (run w).1 = 0%Z \/ exit_status (run w).1 = 1%Z).
Proof.
  pose proof (run_log w) as H.
  assert (outcome_of w = Refused <-> path_exists w "Dockerfile" = false) as G.
  { unfold outcome_of.
    destruct (path_exists w "Dockerfile"); cbv beta iota delta [negb]; [|tauto].
    split; [|discriminate].
    intros E.
    destruct (build_local w []) as [[[]|] t1]; try discriminate E.
    destruct (ship_artifact w t1) as [[[]|] t2]; try discriminate E.
    destruct (run_remote w t2) as [[[]|] t3]; discriminate E. }
  rewrite <- G. clear G.
  destruct (outcome_of w) as [| |f|f e].
  - rewrite H. cbn. split; [discriminate|]. split; [|now right].
    split; [now left|discriminate].
  - destruct H as (t & _ & _ & ->). cbn. split; [discriminate|].
    split; [|now left].
    split; [congruence|]. intros [|(f & errno & [? _])]; congruence.
  - destruct H as (t & _ & _ & ->). cbn. split.
    + intros g [= <-]. split; [reflexivity|apply last_snoc].
    + split; [|now left].
      split; [congruence|]. intros [|(g & errno & [? _])]; congruence.
  - destruct H as (t & errno & _ & _ & -> & ->). cbn.
    split; [discriminate|]. split; [|now right].
    split; [|discriminate]. intros _. right. exists f, errno. now split.
Qed.

Lemma C10_exit_status_witness :
  exit_status (run (world_failing [Remote])).1 = 0%Z /\
  last (run (world_failing [Remote])).2 = Some (Printed (failure_line RunRemote)).
Proof.
  apply (proj1 (C10_exit_status (world_failing [Remote])) RunRemote).
  vm_compute. reflexivity.
Defined.

(** ** C3 *)

(** A [CalledProcessError] never leaves a stage function. *)
Lemma stage_functions_convert (w : world) (t0 : log) (status : Z) (c : cmd_arg) :
  (build_local w t0).1 <> Raise (CalledProcessError status c) /\
  (ship_artifact w t0).1 <> Raise (CalledProcessError status c) /\
  (run_remote w t0).1 <> Raise (CalledProcessError status c).
Proof.
  repeat split; intros E.
  - destruct (build_local w t0) as [r u] eqn:B.
    apply build_local_adds in B as (_ & R & _).
    destruct (R _ E) as [? [=]].
  - destruct (ship_artifact w t0) as [r u] eqn:B.
    apply ship_artifact_adds in B as (_ & R & _).
    destruct (R _ E) as [? [=]].
  - destruct (run_remote w t0) as [r u] eqn:B.
    apply run_remote_adds in B as (_ & R & _).
    destruct (R _ E) as [? [=]].
Qed.

(** C3 as stated fails: when the child cannot be started,
    [subprocess.check_call] raises [OSError], which the except clause of
    [run_command] does not name; the exception leaves [run_command],
    [build_local] and the main block. *)
Lemma C3_counterexample :
  (run_command world_without_docker docker_build_cmd false
     [Printed build_banner]).1 = Raise (OSError 2) /\
  (build_local world_without_docker []).1 = Raise (OSError 2) /\
  (run world_without_docker).1 = Raise (OSError 2).
Proof. repeat split. Qed.

(** C3, amended -- error conversion.  For every command, from any log:
    [run_command] returns [True] exactly when the child exits with status
    0; it returns [False] exactly when the child exits with another status
    (the [CalledProcessError] is caught and printed); it raises exactly
    when the child cannot be started, and what it raises is that
    [OSError].  No stage function ever lets a [CalledProcessError]
    through. *)
Theorem C3_error_conversion (w : world) (cmd : cmd_arg) (shell : bool) (t : log) :
  ((run_command w cmd shell t).1 = Ret true <->
     spawn w (t ++ [Printed (running_line cmd)]) cmd shell = Exited 0) /\
  ((run_command w cmd shell t).1 = Ret false <->
     exists status, status <> 0%Z /\
       spawn w (t ++ [Printed (running_line cmd)]) cmd shell = Exited status) /\
  (forall e, (run_command w cmd shell t).1 = Raise e <->
     exists errno, e = OSError errno /\
       spawn w (t ++ [Printed (running_line cmd)]) cmd shell = NotStarted errno) /\
  (forall t0 status c,
     (build_local w t0).1 <> Raise (CalledProcessError status c) /\
     (ship_artifact w t0).1 <> Raise (CalledProcessError status c) /\
     (run_remote w t0).1 <> Raise (CalledProcessError status c)).
Proof.
  split; [|split; [|split]]; try apply stage_functions_convert;
    rewrite run_command_spec;
    destruct (spawn w _ cmd shell) as [status|errno];
    try destruct (Z.eqb_spec status 0) as [->|N]; cbn [fst].
  - tauto.
  - split; [discriminate|]. intros [= ->]. congruence.
  - split; discriminate.
  - split; [discriminate|]. intros (st & N & [= <-]). congruence.
  - split; [|reflexivity]. intros _. now exists status.
  - split; [discriminate|]. intros (? & _ & [=]).
  - intros e. split; [discriminate|]. intros (? & _ & [=]).
  - intros e. split; [discriminate|]. intros (? & _ & [=]).
  - intros e. split.
    + intros [= <-]. now exists errno.
    + intros (? & -> & [= ->]). reflexivity.
Qed.

End DeployFacts.

(** * Facts about server/cleanup.py *)

Module CleanupFacts.

Import Cleanup.

Section WithWorld.

Variable w : world.

(** Every run of the script, by the first thing that goes wrong. *)
Lemma run_cases :
  run w =
    match connect_fault w with
    | Some msg => after_error w None (-1) [] msg
    | None =>
    let t1 := [Printed "Deleting notes..."] in
    match execute_fault w t1 "DELETE FROM notes" with
    | Some msg => after_error w None (-1) (t1 ++ [Execute "DELETE FROM notes"]) msg
    | None =>
    match stored w !! "notes" with
    | None =>
        after_error w None (-1) (t1 ++ [Execute "DELETE FROM notes"])
          "no such table: notes"
    | Some ns =>
    let pending := <["notes" := []]> (stored w) in
    let t2 := t1 ++ [Execute "DELETE FROM notes"; Printed "Deleting collaborators..."] in
    match execute_fault w t2 "DELETE FROM note_collaborators" with
    | Some msg =>
        after_error w (Some pending) (Z.of_nat (length ns))
          (t2 ++ [Execute "DELETE FROM note_collaborators"]) msg
    | None =>
    match stored w !! "note_collaborators" with
    | None =>
        after_error w (Some pending) (Z.of_nat (length ns))
          (t2 ++ [Execute "DELETE FROM note_collaborators"])
          "no such table: note_collaborators"
    | Some cs =>
    let t3 := t2 ++ [Execute "DELETE FROM note_collaborators"] in
    match commit_fault w t3 with
    | Some msg =>
        after_error w (Some (purged (stored w))) (Z.of_nat (length cs))
          (t3 ++ [Commit]) msg
    | None =>
        (Ret tt,
         {| file := purged (stored w); txn := None;
            rowcount := Z.of_nat (length cs);
            out := t3 ++ [Commit; Close;
                          Printed (success_line (Z.of_nat (length ns))
                                                (Z.of_nat (length cs)))] |})
    end end end end end end.
Proof.
  unfold run, script, try_except, bind, connect, print, modify, gets, raise, ret,
    after_error, initial.
  destruct (connect_fault w) as [msg|]; [reflexivity|].
  unfold execute at 1. cbn.
  destruct (execute_fault w _ "DELETE FROM notes") as [msg|]; [reflexivity|].
  destruct (stored w !! "notes") as [ns|]; [|reflexivity].
  unfold execute. cbn.
  destruct (execute_fault w _ "DELETE FROM note_collaborators") as [msg|];
    [reflexivity|].
  rewrite lookup_insert_ne by discriminate.
  destruct (stored w !! "note_collaborators") as [cs|]; [|reflexivity].
  unfold commit, close. cbn.
  destruct (commit_fault w _) as [msg|]; reflexivity.
Qed.

End WithWorld.

Lemma purged_spec (d : tables) :
  purged d !! "notes" = Some [] /\
  purged d !! "note_collaborators" = Some [] /\
  (forall table, table <> "notes" -> table <> "note_collaborators" ->
                 purged d !! table = d !! table).
Proof.
  unfold purged. repeat split.
  - rewrite lookup_insert_ne by discriminate. apply lookup_insert_eq.
  - apply lookup_insert_eq.
  - intros table N1 N2. now rewrite !lookup_insert_ne by congruence.
Qed.

(** ** C7 *)

(** C7 -- cleanup behaviour.  In every run the statements executed are an
    initial part of [DELETE FROM notes], [DELETE FROM note_collaborators],
    in that order, and at most one commit is attempted.  In a world where
    nothing fails and both tables exist, the run executes exactly these
    two statements, then commits once, closes, and prints the success
    line with the numbers of rows the two tables held; afterwards both
    tables are empty and every other table is as before. *)
Theorem C7_cleanup_behaviour (w : world) :
  executed (out (run w).2) `prefix_of`
    ["DELETE FROM notes"; "DELETE FROM note_collaborators"] /\
  commits (out (run w).2) <= 1 /\
  (forall ns cs,
     connect_fault w = None ->
     (forall t sql, execute_fault w t sql = None) ->
     (forall t, commit_fault w t = None) ->
     stored w !! "notes" = Some ns ->
     stored w !! "note_collaborators" = Some cs ->
     run w =
       (Ret tt,
        {| file := purged (stored w); txn := None;
           rowcount := Z.of_nat (length cs);
           out := [Printed "Deleting notes..."; Execute "DELETE FROM notes";
                   Printed "Deleting collaborators...";
                   Execute "DELETE FROM note_collaborators";
                   Commit; Close;
                   Printed (success_line (Z.of_nat (length ns))
                                         (Z.of_nat (length cs)))] |}) /\
     final_db w !! "notes" = Some [] /\
     final_db w !! "note_collaborators" = Some [] /\
     (forall table, table <> "notes" -> table <> "note_collaborators" ->
                    final_db w !! table = stored w !! table)).
Proof.
  split; [|split].
  - rewrite run_cases. unfold after_error.
    destruct (connect_fault w); [eexists; reflexivity|].
    cbv zeta.
    destruct (execute_fault w _ "DELETE FROM notes"); [eexists; reflexivity|].
    destruct (stored w !! "notes"); [|eexists; reflexivity].
    destruct (execute_fault w _ "DELETE FROM note_collaborators"); [eexists; reflexivity|].
    destruct (stored w !! "note_collaborators"); [|eexists; reflexivity].
    destruct (commit_fault w _); eexists; reflexivity.
  - rewrite run_cases. unfold after_error.
    destruct (connect_fault w); [vm_compute; lia|].
    cbv zeta.
    destruct (execute_fault w _ "DELETE FROM notes"); [vm_compute; lia|].
    destruct (stored w !! "notes"); [|vm_compute; lia].
    destruct (execute_fault w _ "DELETE FROM note_collaborators"); [vm_compute; lia|].
    destruct (stored w !! "note_collaborators"); [|vm_compute; lia].
    destruct (commit_fault w _); vm_compute; lia.
  - intros ns cs HC HE HK Hn Hc.
    assert (run w =
       (Ret tt,
        {| file := purged (stored w); txn := None;
           rowcount := Z.of_nat (length cs);
           out := [Printed "Deleting notes..."; Execute "DELETE FROM notes";
                   Printed "Deleting collaborators...";
                   Execute "DELETE FROM note_collaborators";
                   Commit; Close;
                   Printed (success_line (Z.of_nat (length ns))
                                         (Z.of_nat (length cs)))] |})) as R.
    { rewrite run_cases. cbv zeta. now rewrite HC, !HE, Hn, Hc, HK. }
    split; [exact R|]. unfold final_db. rewrite R. cbn [snd file].
    apply purged_spec.
Qed.

Lemma C7_cleanup_behaviour_witness :
  (run (healthy_world 3 2)).1 = Ret tt /\
  out (run (healthy_world 3 2)).2 =
    [Printed "Deleting notes..."; Execute "DELETE FROM notes";
     Printed "Deleting collaborators..."; Execute "DELETE FROM note_collaborators";
     Commit; Close;
     Printed "SUCCESS: Deleted 3 notes and 2 collaborator records."] /\
  final_db (healthy_world 3 2) !! "notes" = Some [] /\
  final_db (healthy_world 3 2) !! "users" = Some [[SqlText "admin"]].
Proof.
  destruct (proj2 (proj2 (C7_cleanup_behaviour (healthy_world 3 2)))
              (replicate 3 [SqlInt 1]) (replicate 2 [SqlInt 1; SqlInt 2]))
    as (R & N & _ & O).
  - reflexivity.
  - reflexivity.
  - reflexivity.
  - vm_compute. reflexivity.
  - vm_compute. reflexivity.
  - rewrite R. split; [reflexivity|]. split; [reflexivity|].
    split; [exact N|]. rewrite O by discriminate. vm_compute. reflexivity.
Defined.

(** ** C8 *)

(** C8 -- atomicity and total error handling.  No run raises.  Every run
    ends in one of two ways: both tables existed, the file now holds the
    purged content, one commit was made and the success line with the two
    row counts is printed last; or the file holds what it held before and
    an error line is printed last.  A commit is attempted only when both
    statements have been executed without error. *)
Theorem C8_cleanup_atomic (w : world) :
  (run w).1 = Ret tt /\
  ((exists ns cs,
      stored w !! "notes" = Some ns /\
      stored w !! "note_collaborators" = Some cs /\
      final_db w = purged (stored w) /\
      commits (out (run w).2) = 1 /\
      last (out (run w).2) =
        Some (Printed (success_line (Z.of_nat (length ns)) (Z.of_nat (length cs))))) \/
   (exists msg,
      final_db w = stored w /\
      last (out (run w).2) = Some (Printed ("ERROR: " +:+ msg)))) /\
  (forall i,
     out (run w).2 !! i = Some Commit ->
     take i (out (run w).2) =
       [Printed "Deleting notes..."; Execute "DELETE FROM notes";
        Printed "Deleting collaborators..."; Execute "DELETE FROM note_collaborators"] /\
     (exists ns cs, stored w !! "notes" = Some ns /\
                    stored w !! "note_collaborators" = Some cs) /\
     execute_fault w [Printed "Deleting notes..."] "DELETE FROM notes" = None /\
     execute_fault w [Printed "Deleting notes..."; Execute "DELETE FROM notes";
                      Printed "Deleting collaborators..."]
       "DELETE FROM note_collaborators" = None).
Proof.
  unfold final_db. rewrite run_cases. unfold after_error. cbv zeta.
  destruct (connect_fault w) as [msg|].
  { split; [reflexivity|]. split; [right; by exists msg|].
    intros [|[|i]] [=]. }
  destruct (execute_fault w _ "DELETE FROM notes") as [msg|] eqn:F1.
  { split; [reflexivity|]. split; [right; by exists msg|].
    intros [|[|[|[|i]]]] [=]. }
  destruct (stored w !! "notes") as [ns|] eqn:Hn.
  2:{ split; [reflexivity|]. split; [right; by eexists|].
      intros [|[|[|[|i]]]] [=]. }
  destruct (execute_fault w _ "DELETE FROM note_collaborators") as [msg|] eqn:F2.
  { split; [reflexivity|]. split; [right; by exists msg|].
    intros [|[|[|[|[|[|i]]]]]] [=]. }
  destruct (stored w !! "note_collaborators") as [cs|] eqn:Hc.
  2:{ split; [reflexivity|]. split; [right; by eexists|].
      intros [|[|[|[|[|[|i]]]]]] [=]. }
  destruct (commit_fault w _) as [msg|].
  - split; [reflexivity|]. split; [right; by exists msg|].
    intros [|[|[|[|[|[|[|i]]]]]]] [=]. eauto 10.
  - split; [reflexivity|]. split; [left; exists ns, cs; by repeat split|].
    intros [|[|[|[|[|[|[|[|i]]]]]]]] [=]. eauto 10.
Qed.

(** When the second table is missing the first statement has already run,
    yet the file keeps its rows. *)
Lemma C8_cleanup_atomic_witness :
  (run world_missing_collaborators).1 = Ret tt /\
  final_db world_missing_collaborators = stored world_missing_collaborators.
Proof.
  destruct (C8_cleanup_atomic world_missing_collaborators) as (R & [S|E] & _).
  - split; [exact R|]. destruct S as (ns & cs & _ & Hc & _).
    vm_compute in Hc. discriminate Hc.
  - split; [exact R|]. destruct E as (msg & F & _). exact F.
Defined.

End CleanupFacts.

(** * More about deploy_artifact.py *)

Module DeployPaths.

Import Deploy DeployFacts.

(** ** The catalogue of runs *)

(** X1 -- every run follows one of the ten paths of [path], and its
    outcome is the one the path is listed under: the log of a run is
    determined by how far it got, the exit status of the failing child or
    the errno of the raise, and the size of the artifact. *)
Theorem run_follows_path (w : world) : path (outcome_of w) (run w).
Proof.
  unfold outcome_of. rewrite run_spec.
  destruct (path_exists w "Dockerfile"); cbv beta iota delta [negb];
    [|constructor].
  rewrite build_local_spec, run_command_spec.
  destruct (spawn w _ docker_build_cmd false) as [st|errno];
    [destruct (Z.eqb_spec st 0) as [->|N]|];
    [|exact (path_build_failed st N)|exact (path_build_not_started errno)].
  rewrite run_command_spec.
  destruct (spawn w _ docker_save_cmd true) as [st|errno];
    [destruct (Z.eqb_spec st 0) as [->|N]|];
    [|exact (path_package_failed st N)|exact (path_package_raised errno)].
  destruct (file_size w _ ARTIFACT_NAME) as [bytes|errno];
    [|exact (path_package_raised errno)].
  rewrite ship_artifact_spec, run_command_spec.
  destruct (spawn w _ scp_cmd false) as [st|errno];
    [destruct (Z.eqb_spec st 0) as [->|N]|];
    [|exact (path_ship_failed bytes st N)|exact (path_ship_not_started bytes errno)].
  rewrite run_remote_spec, run_command_spec.
  destruct (spawn w _ ssh_cmd false) as [st|errno];
    [destruct (Z.eqb_spec st 0) as [->|N]|];
    [exact (path_complete bytes)|exact (path_remote_failed bytes st N)
    |exact (path_remote_not_started bytes errno)].
Qed.

(** X2 -- the catalogue is tight: each of the ten paths is the run of
    some world, with the outcome it is listed under. *)
Theorem path_realised (o : outcome) (x : result exn unit * log) :
  path o x -> exists w, outcome_of w = o /\ run w = x.
Proof.
  intros [ |st N|errno|st N|errno|bytes st N|bytes errno|bytes st N|bytes errno|bytes].
  - exists (uniform_world false 0). split; reflexivity.
  - exists (world_of (only docker_build_cmd (Exited st)) (inl 0%Z)).
    destruct st as [|p|p]; [congruence|..]; split; vm_compute; reflexivity.
  - exists (world_of (only docker_build_cmd (NotStarted errno)) (inl 0%Z)).
    split; vm_compute; reflexivity.
  - exists (world_of (only docker_save_cmd (Exited st)) (inl 0%Z)).
    destruct st as [|p|p]; [congruence|..]; split; vm_compute; reflexivity.
  - exists (world_of (fun _ => Exited 0) (inr errno)).
    split; vm_compute; reflexivity.
  - exists (world_of (only scp_cmd (Exited st)) (inl bytes)).
    destruct st as [|p|p]; [congruence|..]; split; vm_compute; reflexivity.
  - exists (world_of (only scp_cmd (NotStarted errno)) (inl bytes)).
    split; vm_compute; reflexivity.
  - exists (world_of (only ssh_cmd (Exited st)) (inl bytes)).
    destruct st as [|p|p]; [congruence|..]; split; vm_compute; reflexivity.
  - exists (world_of (only ssh_cmd (NotStarted errno)) (inl bytes)).
    split; vm_compute; reflexivity.
  - exists (world_of (fun _ => Exited 0) (inl bytes)).
    split; vm_compute; reflexivity.
Qed.

Lemma path_realised_witness :
  exists w, outcome_of w = FailedAt ShipArtifact /\
    run w =
      (Ret tt,
       build_part ++ package_part ++ [PrintedArtifactSize 4096] ++ ship_part
         ++ error_part 255 scp_cmd ++ [Printed shipping_failed_line]).
Proof.
  apply (path_realised (FailedAt ShipArtifact)).
  apply (path_ship_failed 4096 255). discriminate.
Defined.

(** To show that something holds of every run, look at the ten paths. *)
Lemma by_paths (P : outcome -> result exn unit * log -> Prop) :
  (forall o x, path o x -> P o x) -> forall w, P (outcome_of w) (run w).
Proof. intros H w. apply H, run_follows_path. Qed.

(** ** Commands *)

Lemma commands_spec (t : log) (c : cmd_arg) (sh : bool) :
  CheckCall c sh ∈ t <-> (c, sh) ∈ commands t.
Proof.
  induction t as [|e t IH].
  - split; intros H; inversion H.
  - rewrite elem_of_cons, IH.
    destruct e as [l|x|n|c' sh']; cbn [commands flat_map app];
      fold (commands t);
      try (split; [intros [[=]|H]; exact H | intros H; right; exact H]).
    rewrite elem_of_cons.
    split; (intros [E|H]; [left; congruence | right; exact H]).
Qed.

(** X3 -- shell discipline.  In every run, each command started is one of
    the four stage commands with the shell flag the stage gives it, and it
    goes through a shell exactly when it is the [docker save | gzip]
    line: the three commands given as word lists never do. *)
Theorem shell_only_for_save (w : world) (c : cmd_arg) (sh : bool) :
  CheckCall c sh ∈ (run w).2 ->
  (exists s, (c, sh) = stage_command s) /\
  (sh = true <-> c = docker_save_cmd) /\
  (sh = false <-> exists argv, c = CmdList argv).
Proof.
  rewrite commands_spec.
  destruct (run_readings w) as (k & [_ C] & _). rewrite C. clear C.
  intros H. apply subseteq_take in H.
  change (map stage_command declared_order)
    with [stage_command Build; stage_command Package;
          stage_command Ship; stage_command Remote] in H.
  rewrite !elem_of_cons, elem_of_nil in H.
  assert (exists s, (c, sh) = stage_command s) as [s E].
  { destruct H as [H|[H|[H|[H|[]]]]];
      [exists Build|exists Package|exists Ship|exists Remote]; exact H. }
  split; [now exists s|].
  destruct s; injection E as -> ->;
    split; split; try discriminate; try reflexivity;
    try (intros _; eexists; reflexivity);
    intros [argv [=]].
Qed.

Lemma shell_only_for_save_witness :
  (exists s, (docker_save_cmd, true) = stage_command s) /\
  (true = true <-> docker_save_cmd = docker_save_cmd) /\
  (true = false <-> exists argv, docker_save_cmd = CmdList argv).
Proof.
  apply (shell_only_for_save (world_failing [Package])).
  apply (bool_decide_unpack _). vm_compute. exact I.
Defined.

(** A log that passes the check has every command right after its line. *)
Lemma announced_sound (t : log) (prev : option event) :
  announced prev t = true ->
  forall i c sh,
    t !! i = Some (CheckCall c sh) ->
    match i with
    | 0 => prev = Some (Printed (running_line c))
    | S j => t !! j = Some (Printed (running_line c))
    end.
Proof.
  revert prev. induction t as [|e t IH]; intros prev H i c sh L.
  - destruct i; discriminate L.
  - cbn [announced] in H. apply andb_true_iff in H as [H1 H2].
    destruct i as [|i].
    + cbn in L. injection L as ->. now apply bool_decide_eq_true in H1.
    + cbn in L. specialize (IH (Some e) H2 i c sh L).
      destruct i as [|j]; [now injection IH as ->|exact IH].
Qed.

(** X4 -- announce before start.  In every run, a command is never the
    first event, and the event right before it is the line
    [--> Running: ...] that spells out that very command. *)
Theorem command_announced (w : world) (i : nat) (c : cmd_arg) (sh : bool) :
  (run w).2 !! i = Some (CheckCall c sh) ->
  exists j, i = S j /\ (run w).2 !! j = Some (Printed (running_line c)).
Proof.
  intros L.
  assert (announced None (run w).2 = true) as A.
  { apply (by_paths (fun _ x => announced None x.2 = true)).
    intros o x []; reflexivity. }
  pose proof (announced_sound _ _ A i c sh L) as H.
  destruct i as [|j]; [discriminate H|]. now exists j.
Qed.

Lemma command_announced_witness :
  exists j, 5 = S j /\
    (run (world_failing [Ship])).2 !! j = Some (Printed (running_line docker_save_cmd)).
Proof.
  apply (command_announced (world_failing [Ship]) 5 docker_save_cmd true).
  vm_compute. reflexivity.
Defined.

(** ** What is printed *)

(** Absence from a log, by evaluation. *)
Lemma not_in_log (e : event) (t : log) : bool_decide (e ∈ t) = false -> e ∉ t.
Proof. intros Hb Hin. apply bool_decide_eq_false in Hb. contradiction. Qed.

(** X5 -- the error report.  In every run at most one
    [Error running command] line is printed; one is printed exactly when a
    stage function returned [False]; and it reports a non-zero exit status
    of the command that was started last. *)
Theorem command_error_report (w : world) :
  (errors (run w).2 = [] <-> forall f, outcome_of w <> FailedAt f) /\
  (forall e, e ∈ errors (run w).2 ->
     errors (run w).2 = [e] /\
     exists status c sh,
       e = CalledProcessError status c /\ status <> 0%Z /\
       last (commands (run w).2) = Some (c, sh)).
Proof.
  apply (by_paths (fun o x =>
    (errors x.2 = [] <-> forall f, o <> FailedAt f) /\
    (forall e, e ∈ errors x.2 ->
       errors x.2 = [e] /\
       exists status c sh,
         e = CalledProcessError status c /\ status <> 0%Z /\
         last (commands x.2) = Some (c, sh)))).
  intros o x [ |st N|errno|st N|errno|bytes st N|bytes errno|bytes st N|bytes errno|bytes];
    cbn [snd];
    cbv [errors build_part package_part ship_part remote_part error_part
         flat_map app];
    first
      [ split;
        [ split; [intros _ f; discriminate | intros _; reflexivity]
        | intros e H; inversion H ]
      | split;
        [ split; [discriminate | intros H; now contradiction (H _ eq_refl)]
        | intros e H; apply list_elem_of_singleton in H as ->;
          split; [reflexivity|]; do 3 eexists;
          split; [reflexivity|]; split; [exact N | reflexivity] ] ].
Qed.

(** X6 -- completion is reported honestly.  The completion line is in the
    log of a run exactly when the three stage functions returned [True];
    the run then ended normally, no error line and no failure line was
    printed, and the availability line is the last line. *)
Theorem completion_line_iff_success (w : world) :
  (Printed complete_line ∈ (run w).2 <-> outcome_of w = Success) /\
  (outcome_of w = Success ->
     (run w).1 = Ret tt /\ exit_status (run w).1 = 0%Z /\
     errors (run w).2 = [] /\ verdicts (run w).2 = [] /\
     last (run w).2 = Some (Printed availability_line)).
Proof.
  apply (by_paths (fun o x =>
    (Printed complete_line ∈ x.2 <-> o = Success) /\
    (o = Success ->
       x.1 = Ret tt /\ exit_status x.1 = 0%Z /\
       errors x.2 = [] /\ verdicts x.2 = [] /\
       last x.2 = Some (Printed availability_line)))).
  intros o x [ |st N|errno|st N|errno|bytes st N|bytes errno|bytes st N|bytes errno|bytes];
    cbn [fst snd];
    first
      [ split; [|discriminate]; split; [|discriminate];
        intros H; exfalso; revert H; apply not_in_log; reflexivity
      | split; [|intros _; repeat split];
        split; [reflexivity|]; intros _;
        apply (bool_decide_unpack _); vm_compute; exact I ].
Qed.

(** X7 -- the size of the artifact is read before shipping.  In every run
    the ship stage is entered exactly when an artifact-size line has been
    printed, and that line stands right before the ship banner. *)
Theorem ship_iff_size_printed (w : world) :
  (Entered Ship ∈ marks (run w).2 <->
   exists bytes, PrintedArtifactSize bytes ∈ (run w).2) /\
  (forall i, (run w).2 !! S i = Some (Printed ship_banner) ->
             exists bytes, (run w).2 !! i = Some (PrintedArtifactSize bytes)).
Proof.
  apply (by_paths (fun o x =>
    (Entered Ship ∈ marks x.2 <-> exists bytes, PrintedArtifactSize bytes ∈ x.2) /\
    (forall i, x.2 !! S i = Some (Printed ship_banner) ->
               exists bytes, x.2 !! i = Some (PrintedArtifactSize bytes)))).
  intros o x [ |st N|errno|st N|errno|bytes st N|bytes errno|bytes st N|bytes errno|bytes];
    cbn [snd];
    first
      [ split;
        [ split;
          [ intros H; exfalso; revert H; apply not_in_marks; reflexivity
          | intros [n H]; exfalso; revert H; apply not_in_log; reflexivity ]
        | intros i H;
          do 8 (destruct i as [|i]; [vm_compute in H; discriminate H|]);
          vm_compute in H; discriminate H ]
      | split;
        [ split;
          [ intros _; exists bytes;
            apply elem_of_app; right; apply elem_of_app; right;
            apply elem_of_app; left; constructor
          | intros _; apply (bool_decide_unpack _); vm_compute; exact I ]
        | intros i H;
          do 18 (destruct i as [|i];
                 [first [now exists bytes | vm_compute in H; discriminate H]|]);
          vm_compute in H; discriminate H ] ].
Qed.

(** X8 -- an artifact that cannot be inspected.  When both commands of
    [build_local] exit with status 0 and [os.path.getsize] then raises,
    the [OSError] is caught nowhere: the run ends with exit status 1 right
    after the package command, nothing is shipped or run remotely, and
    neither an error line nor a failure line is printed. *)
Theorem unreadable_artifact_aborts (w : world) (errno : Z) :
  path_exists w "Dockerfile" = true ->
  spawn w [Printed build_banner; Printed (running_line docker_build_cmd)]
    docker_build_cmd false = Exited 0 ->
  spawn w (build_part ++ [Printed package_banner;
                          Printed (running_line docker_save_cmd)])
    docker_save_cmd true = Exited 0 ->
  file_size w (build_part ++ package_part) ARTIFACT_NAME = inr errno ->
  run w = (Raise (OSError errno), build_part ++ package_part) /\
  outcome_of w = Crashed BuildLocal (OSError errno) /\
  exit_status (run w).1 = 1%Z /\
  untouched Ship (run w).2 /\ untouched Remote (run w).2 /\
  errors (run w).2 = [] /\ verdicts (run w).2 = [].
Proof.
  intros P B S G.
  assert (build_local w [] = (Raise (OSError errno), build_part ++ package_part))
    as E.
  { rewrite build_local_spec, run_command_spec.
    change (([] ++ [Printed build_banner]) ++ [Printed (running_line docker_build_cmd)])
      with [Printed build_banner; Printed (running_line docker_build_cmd)].
    rewrite B. cbv beta iota delta [Z.eqb].
    rewrite run_command_spec.
    change ((([] ++ [Printed build_banner]) ++
             [Printed (running_line docker_build_cmd);
              CheckCall docker_build_cmd false]) ++ [Printed package_banner])
      with (build_part ++ [Printed package_banner]).
    change ((build_part ++ [Printed package_banner]) ++
            [Printed (running_line docker_save_cmd)])
      with (build_part ++ [Printed package_banner;
                           Printed (running_line docker_save_cmd)]).
    rewrite S. cbv beta iota delta [Z.eqb].
    change ((build_part ++ [Printed package_banner]) ++
            [Printed (running_line docker_save_cmd);
             CheckCall docker_save_cmd true])
      with (build_part ++ package_part).
    now rewrite G. }
  assert (run w = (Raise (OSError errno), build_part ++ package_part)) as R.
  { rewrite run_spec, P, E. reflexivity. }
  split; [exact R|].
  split; [unfold outcome_of; now rewrite P, E|].
  rewrite R. cbn [fst snd].
  split; [reflexivity|].
  unfold untouched.
  repeat split; try (apply not_in_marks; reflexivity).
Qed.

Lemma unreadable_artifact_aborts_witness :
  run (world_of (fun _ => Exited 0) (inr 13%Z)) =
    (Raise (OSError 13), build_part ++ package_part) /\
  exit_status (run (world_of (fun _ => Exited 0) (inr 13%Z))).1 = 1%Z.
Proof.
  destruct (unreadable_artifact_aborts
              (world_of (fun _ => Exited 0) (inr 13%Z)) 13)
    as (R & _ & X & _); try reflexivity.
  split; [exact R|exact X].
Defined.

End DeployPaths.

(** * More about server/cleanup.py *)

Module CleanupMore.

Import Cleanup CleanupFacts.

Lemma purged_idem (d : tables) : purged (purged d) = purged d.
Proof.
  apply map_eq. intros k.
  destruct (purged_spec d) as (N & C & O).
  destruct (purged_spec (purged d)) as (N' & C' & O').
  destruct (decide (k = "notes")) as [->|Hn]; [congruence|].
  destruct (decide (k = "note_collaborators")) as [->|Hc]; [congruence|].
  now apply O'.
Qed.

(** An error line is no success line. *)
Lemma error_is_no_success (msg : string) (a b : Z) :
  Some (Printed ("ERROR: " +:+ msg)) <> Some (Printed (success_line a b)).
Proof. unfold success_line. cbn. discriminate. Qed.

(** The two ways a run can end, with everything that is known then. *)
Lemma run_ends (w : world) :
  (exists ns cs,
     stored w !! "notes" = Some ns /\
     stored w !! "note_collaborators" = Some cs /\
     connect_fault w = None /\
     run w =
       (Ret tt,
        {| file := purged (stored w); txn := None;
           rowcount := Z.of_nat (length cs);
           out := [Printed "Deleting notes..."; Execute "DELETE FROM notes";
                   Printed "Deleting collaborators...";
                   Execute "DELETE FROM note_collaborators"; Commit; Close;
                   Printed (success_line (Z.of_nat (length ns))
                                         (Z.of_nat (length cs)))] |})) \/
  (exists pending rc t msg,
     run w = after_error w pending rc t msg /\
     (Close ∉ t) /\
     (connect_fault w = None <-> t <> []) /\
     (executed t = [] <-> t = []) /\
     (forall p, pending = Some p -> p !! "notes" = Some [])).
Proof.
  rewrite run_cases. cbv zeta.
  assert (forall (t : list event), bool_decide (Close ∈ t) = false -> Close ∉ t)
    as NC.
  { intros t Hb Hin. apply bool_decide_eq_false in Hb. contradiction. }
  destruct (connect_fault w) as [msg|].
  { right. exists None, (-1)%Z, [], msg.
    split; [reflexivity|]. split; [apply NC; reflexivity|].
    split; [split; [discriminate|congruence]|].
    split; [tauto|discriminate]. }
  destruct (execute_fault w _ "DELETE FROM notes") as [msg|].
  { right. do 4 eexists. split; [reflexivity|].
    split; [apply NC; reflexivity|].
    split; [split; [discriminate|reflexivity]|].
    split; [split; discriminate|discriminate]. }
  destruct (stored w !! "notes") as [ns|] eqn:Hn.
  2:{ right. do 4 eexists. split; [reflexivity|].
      split; [apply NC; reflexivity|].
      split; [split; [discriminate|reflexivity]|].
      split; [split; discriminate|discriminate]. }
  destruct (execute_fault w _ "DELETE FROM note_collaborators") as [msg|].
  { right. do 4 eexists. split; [reflexivity|].
    split; [apply NC; reflexivity|].
    split; [split; [discriminate|reflexivity]|].
    split; [split; discriminate|].
    intros p [= <-]. apply lookup_insert_eq. }
  destruct (stored w !! "note_collaborators") as [cs|] eqn:Hc.
  2:{ right. do 4 eexists. split; [reflexivity|].
      split; [apply NC; reflexivity|].
      split; [split; [discriminate|reflexivity]|].
      split; [split; discriminate|].
      intros p [= <-]. apply lookup_insert_eq. }
  destruct (commit_fault w _) as [msg|].
  - right. do 4 eexists. split; [reflexivity|].
    split; [apply NC; reflexivity|].
    split; [split; [discriminate|reflexivity]|].
    split; [split; discriminate|].
    intros p [= <-]. apply purged_spec.
  - left. exists ns, cs. repeat split.
Qed.

(** X10 -- running the script again.  After a run that printed the
    success line, any later run of the script, in whatever environment,
    leaves the file as the first run left it, and ends either with an
    error line or with the success line for 0 and 0 rows. *)
Theorem cleanup_idempotent (w later : world) (a b : Z) :
  last (out (run w).2) = Some (Printed (success_line a b)) ->
  final_db (world_after w later) = final_db w /\
  (last (out (run (world_after w later)).2) = Some (Printed (success_line 0 0)) \/
   exists msg,
     last (out (run (world_after w later)).2) = Some (Printed ("ERROR: " +:+ msg))).
Proof.
  intros S.
  assert (final_db w = purged (stored w)) as F.
  { unfold final_db.
    destruct (run_ends w) as [(ns & cs & _ & _ & _ & ->)|(p & rc & t & msg & R & _)].
    - reflexivity.
    - rewrite R in S. cbn in S. rewrite last_snoc in S.
      now apply error_is_no_success in S. }
  rewrite F. unfold final_db at 1.
  destruct (run_ends (world_after w later))
    as [(ns & cs & Hn & Hc & _ & ->)|(p & rc & t & msg & -> & _)].
  - cbn in Hn, Hc. rewrite F in Hn, Hc.
    destruct (purged_spec (stored w)) as (Pn & Pc & _).
    rewrite Pn in Hn. rewrite Pc in Hc. injection Hn as <-. injection Hc as <-.
    cbn [snd file out]. change (stored (world_after w later)) with (final_db w).
    rewrite F, purged_idem. split; [reflexivity|]. left. reflexivity.
  - cbn [snd file out after_error].
    change (stored (world_after w later)) with (final_db w).
    split; [exact F|]. right. exists msg. apply last_snoc.
Qed.

Lemma cleanup_idempotent_witness :
  final_db (world_after (healthy_world 3 2) (healthy_world 0 0)) =
    final_db (healthy_world 3 2) /\
  last (out (run (world_after (healthy_world 3 2) (healthy_world 0 0))).2) =
    Some (Printed "SUCCESS: Deleted 0 notes and 0 collaborator records.").
Proof.
  destruct (cleanup_idempotent (healthy_world 3 2) (healthy_world 0 0) 3 2)
    as [F _].
  - vm_compute. reflexivity.
  - split; [exact F|]. vm_compute. reflexivity.
Defined.


(** X12 -- a database that cannot be opened.  No statement is executed
    exactly when [sqlite3.connect] fails; the whole output of the run is
    then the one error line with the message of the failure. *)
Theorem connect_failure_reported (w : world) :
  (executed (out (run w).2) = [] <-> connect_fault w <> None) /\
  (forall msg, connect_fault w = Some msg ->
     out (run w).2 = [Printed ("ERROR: " +:+ msg)] /\
     commits (out (run w).2) = 0 /\
     final_db w = stored w).
Proof.
  unfold final_db. rewrite run_cases. cbv zeta. unfold after_error.
  destruct (connect_fault w) as [msg|].
  { split; [split; [discriminate|reflexivity]|].
    intros ? [= <-]. repeat split. }
  split; [|discriminate].
  split; [|congruence]. intros H. exfalso. revert H.
  destruct (execute_fault w _ "DELETE FROM notes"); [discriminate|].
  destruct (stored w !! "notes"); [|discriminate].
  destruct (execute_fault w _ "DELETE FROM note_collaborators"); [discriminate|].
  destruct (stored w !! "note_collaborators"); [|discriminate].
  destruct (commit_fault w _); discriminate.
Qed.

Lemma connect_failure_reported_witness :
  out (run world_unopenable).2 =
    [Printed "ERROR: unable to open database file"] /\
  commits (out (run world_unopenable).2) = 0 /\
  final_db world_unopenable = stored world_unopenable.
Proof.
  apply (proj2 (connect_failure_reported world_unopenable)
           "unable to open database file").
  reflexivity.
Defined.

End CleanupMore.
